(** * BGPStream: the stream coordinator (bgpstream.c)

    A shallow embedding of the top-level [bgpstream_t] interface: its
    life-cycle status, the filter and data-interface configuration entry
    points, [bgpstream_start], the refill loop of
    [bgpstream_get_next_record] and [bgpstream_destroy].

    The four managers owned by a [bgpstream_t] (filter manager, data
    interface manager, input manager, reader manager) are implemented in
    other compilation units.  The coordinator is therefore written over an
    interface, [Managers], that lists exactly the calls bgpstream.c makes;
    [SpecModel] further down gives one implementation of that interface,
    following the design document. *)

From Stdlib Require Import ZArith List String Bool Lia Sorted.
Import ListNotations.
Local Open Scope Z_scope.

(** ** Plain C data *)

(** [bgpstream_status] of a [bgpstream_t]. *)
Inductive bgpstream_status : Type :=
| BGPSTREAM_STATUS_ALLOCATED
| BGPSTREAM_STATUS_ON
| BGPSTREAM_STATUS_OFF.

Definition status_eqb (a b : bgpstream_status) : bool :=
  match a, b with
  | BGPSTREAM_STATUS_ALLOCATED, BGPSTREAM_STATUS_ALLOCATED => true
  | BGPSTREAM_STATUS_ON, BGPSTREAM_STATUS_ON => true
  | BGPSTREAM_STATUS_OFF, BGPSTREAM_STATUS_OFF => true
  | _, _ => false
  end.

(** The four sub-objects a [bgpstream_t] points to. *)
Inductive component : Type :=
| FILTER_MGR
| DI_MGR
| INPUT_MGR
| READER_MGR.

(** Observable actions of the coordinator, in program order: creation and
    destruction of a sub-object, a store to [bs->status], [free(bs)] and a
    message passed to [bgpstream_log_err].  ([bgpstream_debug] expands to
    nothing unless the library is built for debugging and is left out.)
    [EvUndefined] marks the point where a member of a malloc'ed object is
    read that was never stored: what the program does from there on, its
    return value included, is not determined by the source. *)
Inductive event : Type :=
| EvCreate (c : component)
| EvDestroy (c : component)
| EvStatus (st : bgpstream_status)
| EvFree
| EvLogErr (msg : string)
| EvUndefined.

(** Modelled from the spec: the macro [BGPSTREAM_FOREVER] is defined in a
    public header that is not among the sources; the design document gives
    FOREVER = UINT32_MAX. *)
Definition UINT32_MAX : Z := 4294967295.
Definition BGPSTREAM_FOREVER : Z := UINT32_MAX.

(** Outcome of running a piece of C code in the model. *)
Inductive result (A : Type) : Type :=
| Done (a : A)     (* the call returns *)
| NullDeref        (* a NULL [bgpstream_t *] is dereferenced *)
| Blocked          (* a callee never returns (blocking wait) *)
| OutOfFuel.       (* the loop bound of the model is exhausted *)
Arguments Done {A} a.
Arguments NullDeref {A}.
Arguments Blocked {A}.
Arguments OutOfFuel {A}.

Definition bind {A B : Type} (m : result A) (k : A -> result B) : result B :=
  match m with
  | Done a => k a
  | NullDeref => NullDeref
  | Blocked => Blocked
  | OutOfFuel => OutOfFuel
  end.

Notation "x <- m ;; k" := (bind m (fun x => k))
  (at level 61, m at next level, right associativity).
Notation "' p <- m ;; k" := (bind m (fun p => k))
  (at level 61, p pattern, m at next level, right associativity).

(** ** The interface of the four managers

    One field per function that bgpstream.c calls.  Objects are passed by
    pointer in C; here every call takes the states it may read and returns
    the states it may write.  The data interface manager and the reader
    manager are created with a pointer to the filter manager, which they
    only query, so the calls that consult the filters take it as an
    argument. *)
Class Managers : Type := {
  filter_mgr_t : Type;
  di_mgr_t : Type;
  input_mgr_t : Type;
  reader_mgr_t : Type;
  (* bgpstream_input_t: the queue handed from the input manager to the
     readers *)
  input_t : Type;
  record_t : Type;
  filter_type_t : Type;
  data_interface_id_t : Type;
  data_interface_option_t : Type;

  (* constructors; [None] is a NULL return *)
  bgpstream_filter_mgr_create : option filter_mgr_t;
  bgpstream_di_mgr_create : filter_mgr_t -> option di_mgr_t;
  bgpstream_input_mgr_create : option input_mgr_t;
  bgpstream_reader_mgr_create : filter_mgr_t -> option reader_mgr_t;

  (* filter manager *)
  bgpstream_filter_mgr_filter_add :
    filter_mgr_t -> filter_type_t -> string -> filter_mgr_t;
  bgpstream_filter_mgr_rib_period_filter_add :
    filter_mgr_t -> Z -> filter_mgr_t;
  bgpstream_filter_mgr_interval_filter_add :
    filter_mgr_t -> Z -> Z -> filter_mgr_t;
  bgpstream_filter_mgr_validate : filter_mgr_t -> Z;

  (* utils: [bgpstream_time_calc_recent_interval (&start, &end, interval)];
     the first argument is the wall clock it reads, the result is the
     return code followed by the two out-parameters *)
  bgpstream_time_calc_recent_interval : Z -> string -> Z * (Z * Z);

  (* data interface manager *)
  bgpstream_di_mgr_set_data_interface :
    di_mgr_t -> data_interface_id_t -> di_mgr_t;
  bgpstream_di_mgr_set_data_interface_option :
    di_mgr_t -> data_interface_option_t -> string -> Z * di_mgr_t;
  bgpstream_di_mgr_get_data_interface_id : di_mgr_t -> data_interface_id_t;
  bgpstream_di_mgr_set_blocking : di_mgr_t -> di_mgr_t;
  bgpstream_di_mgr_start : filter_mgr_t -> di_mgr_t -> Z * di_mgr_t;
  (* [None]: the call does not return *)
  bgpstream_di_mgr_get_queue :
    filter_mgr_t -> di_mgr_t -> input_mgr_t ->
    option (Z * di_mgr_t * input_mgr_t);

  (* input manager *)
  bgpstream_input_mgr_is_empty : input_mgr_t -> bool;
  bgpstream_input_mgr_get_queue_to_process :
    input_mgr_t -> input_t * input_mgr_t;

  (* reader manager *)
  bgpstream_reader_mgr_is_empty : reader_mgr_t -> bool;
  bgpstream_reader_mgr_add :
    reader_mgr_t -> input_t -> filter_mgr_t -> reader_mgr_t;
  bgpstream_reader_mgr_get_next_record :
    reader_mgr_t -> record_t -> filter_mgr_t -> Z * reader_mgr_t * record_t;

  (* records *)
  bgpstream_record_clear : record_t -> record_t;
  (* the store [record->bs = bs] *)
  bgpstream_record_set_bs : record_t -> record_t
}.

(** ** The coordinator *)

Section Coordinator.

Context {M : Managers}.

(** [struct bgpstream]. *)
Record bgpstream_t : Type := mk_bgpstream {
  filter_mgr : filter_mgr_t;
  di_mgr : di_mgr_t;
  input_mgr : input_mgr_t;
  reader_mgr : reader_mgr_t;
  status : bgpstream_status
}.

(** A [bgpstream_t *]: [None] is NULL, [Some s] points to an object whose
    contents are [s]. *)
Definition handle : Type := option bgpstream_t.

Definition set_filter_mgr (s : bgpstream_t) (fm : filter_mgr_t) :=
  mk_bgpstream fm (di_mgr s) (input_mgr s) (reader_mgr s) (status s).
Definition set_di_mgr (s : bgpstream_t) (dm : di_mgr_t) :=
  mk_bgpstream (filter_mgr s) dm (input_mgr s) (reader_mgr s) (status s).
Definition set_status (s : bgpstream_t) (st : bgpstream_status) :=
  mk_bgpstream (filter_mgr s) (di_mgr s) (input_mgr s) (reader_mgr s) st.

(** What a call leaves behind: its return value, the object behind the
    handle afterwards ([None] when the handle was NULL or the object has
    been freed) and the actions it performed. *)
Record effect (A : Type) : Type := Eff {
  retval : A;
  after : handle;
  events : list event
}.
Arguments Eff {A} retval after events.
Arguments retval {A} e.
Arguments after {A} e.
Arguments events {A} e.

(** [bgpstream_destroy]'s calls on the sub-objects, in program order.
    The stores of NULL to the four fields sit between these calls and
    [free(bs)] and are not observable. *)
Definition destroy_actions : list event :=
  [EvDestroy INPUT_MGR; EvDestroy READER_MGR;
   EvDestroy FILTER_MGR; EvDestroy DI_MGR; EvFree].

(** [bgpstream_stop] *)
Definition bgpstream_stop (bs : handle) : handle * list event :=
  match bs with
  | None => (None, [])
  | Some s =>
      if negb (status_eqb (status s) BGPSTREAM_STATUS_ON)
      then (Some s, [])
      else (Some (set_status s BGPSTREAM_STATUS_OFF),
            [EvStatus BGPSTREAM_STATUS_OFF])
  end.

(** [bgpstream_destroy] *)
Definition bgpstream_destroy (bs : handle) : result (effect unit) :=
  match bs with
  | None => Done (Eff tt None [])
  | Some _ =>
      let '(_, stopped) := bgpstream_stop bs in
      Done (Eff tt None (stopped ++ destroy_actions))
  end.

(** [bgpstream_create].  [malloc_ok] says whether the allocation of the
    [bgpstream_t] itself succeeds; [EvCreate] records the call of a
    constructor, whether it succeeds or not.  The object comes from
    [malloc], so a member holds nothing definite before it is stored, and
    the status is stored last.  When a constructor returns NULL the source
    calls [bgpstream_destroy] on the object as it is: [bgpstream_stop]
    then reads the status that was never stored, and the destructors are
    handed the manager pointers that were never stored.  Neither the
    actions of that call nor what follows it can be told from the source;
    the trace ends with [EvUndefined] and the handle that comes with it
    carries no information. *)
Definition bgpstream_create (malloc_ok : bool) : handle * list event :=
  if negb malloc_ok then (None, []) else
  match bgpstream_filter_mgr_create with
  | None => (None, [EvCreate FILTER_MGR; EvUndefined])
  | Some fm =>
    match bgpstream_di_mgr_create fm with
    | None => (None, [EvCreate FILTER_MGR; EvCreate DI_MGR; EvUndefined])
    | Some dm =>
      match bgpstream_input_mgr_create with
      | None =>
          (None, [EvCreate FILTER_MGR; EvCreate DI_MGR; EvCreate INPUT_MGR;
                  EvUndefined])
      | Some im =>
        match bgpstream_reader_mgr_create fm with
        | None =>
            (None, [EvCreate FILTER_MGR; EvCreate DI_MGR; EvCreate INPUT_MGR;
                    EvCreate READER_MGR; EvUndefined])
        | Some rm =>
            (Some (mk_bgpstream fm dm im rm BGPSTREAM_STATUS_ALLOCATED),
             [EvCreate FILTER_MGR; EvCreate DI_MGR; EvCreate INPUT_MGR;
              EvCreate READER_MGR; EvStatus BGPSTREAM_STATUS_ALLOCATED])
        end
      end
    end
  end.

(** ** Filters *)

(** [bgpstream_add_filter] *)
Definition bgpstream_add_filter (bs : handle) (filter_type : filter_type_t)
    (filter_value : string) : result (effect unit) :=
  match bs with
  | None => Done (Eff tt None [])
  | Some s =>
      if negb (status_eqb (status s) BGPSTREAM_STATUS_ALLOCATED)
      then Done (Eff tt (Some s) [])
      else Done (Eff tt
             (Some (set_filter_mgr s
                (bgpstream_filter_mgr_filter_add (filter_mgr s)
                   filter_type filter_value))) [])
  end.

(** [bgpstream_add_rib_period_filter] *)
Definition bgpstream_add_rib_period_filter (bs : handle) (period : Z)
    : result (effect unit) :=
  match bs with
  | None => Done (Eff tt None [])
  | Some s =>
      if negb (status_eqb (status s) BGPSTREAM_STATUS_ALLOCATED)
      then Done (Eff tt (Some s) [])
      else Done (Eff tt
             (Some (set_filter_mgr s
                (bgpstream_filter_mgr_rib_period_filter_add (filter_mgr s)
                   period))) [])
  end.

(** The body of [bgpstream_set_live_mode] once [bs] is known to point to
    an object. *)
Definition set_live_mode (s : bgpstream_t) : bgpstream_t :=
  set_di_mgr s (bgpstream_di_mgr_set_blocking (di_mgr s)).

(** [bgpstream_set_live_mode]: [bs->di_mgr] is read without a test. *)
Definition bgpstream_set_live_mode (bs : handle) : result (effect unit) :=
  match bs with
  | None => NullDeref
  | Some s => Done (Eff tt (Some (set_live_mode s)) [])
  end.

(** [bgpstream_add_recent_interval_filter]; [now] is the clock read by
    [bgpstream_time_calc_recent_interval], [islive] a [uint8_t]. *)
Definition bgpstream_add_recent_interval_filter (now : Z) (bs : handle)
    (interval : string) (islive : Z) : result (effect unit) :=
  match bs with
  | None => Done (Eff tt None [])
  | Some s =>
      if negb (status_eqb (status s) BGPSTREAM_STATUS_ALLOCATED)
      then Done (Eff tt (Some s) [])
      else
        let '(rc, (starttime, endtime)) :=
          bgpstream_time_calc_recent_interval now interval in
        if rc =? 0
        then Done (Eff tt (Some s)
               [EvLogErr "Failed to determine suitable time interval"])
        else
          let '(s1, endtime1) :=
            if negb (islive =? 0)
            then (set_live_mode s, BGPSTREAM_FOREVER)
            else (s, endtime) in
          Done (Eff tt
            (Some (set_filter_mgr s1
               (bgpstream_filter_mgr_interval_filter_add (filter_mgr s1)
                  starttime endtime1))) [])
  end.

(** [bgpstream_add_interval_filter] *)
Definition bgpstream_add_interval_filter (bs : handle)
    (begin_time end_time : Z) : result (effect unit) :=
  match bs with
  | None => Done (Eff tt None [])
  | Some s =>
      if negb (status_eqb (status s) BGPSTREAM_STATUS_ALLOCATED)
      then Done (Eff tt (Some s) [])
      else
        let s1 := if end_time =? BGPSTREAM_FOREVER
                  then set_live_mode s else s in
        Done (Eff tt
          (Some (set_filter_mgr s1
             (bgpstream_filter_mgr_interval_filter_add (filter_mgr s1)
                begin_time end_time))) [])
  end.

(** ** Data interface configuration *)

(** [bgpstream_set_data_interface_option]: no test on [bs] or on the
    status; the manager's return code is passed on. *)
Definition bgpstream_set_data_interface_option (bs : handle)
    (option_type : data_interface_option_t) (option_value : string)
    : result (effect Z) :=
  match bs with
  | None => NullDeref
  | Some s =>
      let '(rc, dm) :=
        bgpstream_di_mgr_set_data_interface_option (di_mgr s)
          option_type option_value in
      Done (Eff rc (Some (set_di_mgr s dm)) [])
  end.

(** [bgpstream_set_data_interface] *)
Definition bgpstream_set_data_interface (bs : handle)
    (di : data_interface_id_t) : result (effect unit) :=
  match bs with
  | None => NullDeref
  | Some s =>
      Done (Eff tt
        (Some (set_di_mgr s
           (bgpstream_di_mgr_set_data_interface (di_mgr s) di))) [])
  end.

(** [bgpstream_get_data_interface_id] *)
Definition bgpstream_get_data_interface_id (bs : handle)
    : result (effect data_interface_id_t) :=
  match bs with
  | None => NullDeref
  | Some s =>
      Done (Eff (bgpstream_di_mgr_get_data_interface_id (di_mgr s))
              (Some s) [])
  end.

(** ** Starting the stream *)

(** [bgpstream_start] *)
Definition bgpstream_start (bs : handle) : result (effect Z) :=
  match bs with
  | None => NullDeref
  | Some s =>
      let rc := bgpstream_filter_mgr_validate (filter_mgr s) in
      if negb (rc =? 0) then Done (Eff rc (Some s) [])
      else
        let '(rc_di, dm) :=
          bgpstream_di_mgr_start (filter_mgr s) (di_mgr s) in
        if negb (rc_di =? 0)
        then Done (Eff (-1)
               (Some (set_status (set_di_mgr s dm)
                        BGPSTREAM_STATUS_ALLOCATED))
               [EvStatus BGPSTREAM_STATUS_ALLOCATED])
        else Done (Eff 0
               (Some (set_status (set_di_mgr s dm) BGPSTREAM_STATUS_ON))
               [EvStatus BGPSTREAM_STATUS_ON])
  end.

(** ** Reading records *)

(** How a loop of [bgpstream_get_next_record] is left: by a [return]
    inside its body, or because its condition became false. *)
Inductive loop_exit : Type :=
| Return (rc : Z)
| Fallthrough.

(** The inner loop, [while (bgpstream_input_mgr_is_empty(bs->input_mgr))]:
    query the data interface until the input queue holds something. *)
Fixpoint fill_input_queue (fuel : nat) (fm : filter_mgr_t) (dm : di_mgr_t)
    (im : input_mgr_t) : result (loop_exit * di_mgr_t * input_mgr_t) :=
  if bgpstream_input_mgr_is_empty im then
    match fuel with
    | O => OutOfFuel
    | S fuel' =>
        match bgpstream_di_mgr_get_queue fm dm im with
        | None => Blocked
        | Some (num_query_results, dm1, im1) =>
            if num_query_results =? 0 then
              Done (Return 0, dm1, im1)       (* no (more) data *)
            else if num_query_results <? 0 then
              Done (Return (-1), dm1, im1)    (* error during execution *)
            else fill_input_queue fuel' fm dm1 im1
        end
    end
  else Done (Fallthrough, dm, im).

(** The outer loop, [while (bgpstream_reader_mgr_is_empty(bs->reader_mgr))]:
    move the pending inputs to the readers.  The queue [bs_in] is freed
    by [bgpstream_input_mgr_destroy_queue] once the readers hold it. *)
Fixpoint fill_reader_set (fuel : nat) (fm : filter_mgr_t) (dm : di_mgr_t)
    (im : input_mgr_t) (rm : reader_mgr_t)
    : result (loop_exit * di_mgr_t * input_mgr_t * reader_mgr_t) :=
  if bgpstream_reader_mgr_is_empty rm then
    match fuel with
    | O => OutOfFuel
    | S fuel' =>
        '(ex, dm1, im1) <- fill_input_queue (S fuel') fm dm im ;;
        match ex with
        | Return rc => Done (Return rc, dm1, im1, rm)
        | Fallthrough =>
            let '(bs_in, im2) :=
              bgpstream_input_mgr_get_queue_to_process im1 in
            let rm1 := bgpstream_reader_mgr_add rm bs_in fm in
            fill_reader_set fuel' fm dm1 im2 rm1
        end
    end
  else Done (Fallthrough, dm, im, rm).

(** [bgpstream_get_next_record].  [fuel] bounds the iterations of each
    of the two loops. *)
Definition bgpstream_get_next_record (fuel : nat) (bs : handle)
    (record : record_t) : result (effect (Z * record_t)) :=
  match bs with
  | None => Done (Eff (-1, record) None [])
  | Some s =>
      if negb (status_eqb (status s) BGPSTREAM_STATUS_ON)
      then Done (Eff (-1, record) (Some s) [])   (* wrong status *)
      else
        let record1 := bgpstream_record_clear record in
        '(ex, dm, im, rm) <-
          fill_reader_set fuel (filter_mgr s) (di_mgr s) (input_mgr s)
            (reader_mgr s) ;;
        match ex with
        | Return rc =>
            Done (Eff (rc, record1)
              (Some (mk_bgpstream (filter_mgr s) dm im rm (status s))) [])
        | Fallthrough =>
            let record2 := bgpstream_record_set_bs record1 in
            let '(rc, rm1, record3) :=
              bgpstream_reader_mgr_get_next_record rm record2
                (filter_mgr s) in
            Done (Eff (rc, record3)
              (Some (mk_bgpstream (filter_mgr s) dm im rm1 (status s))) [])
        end
  end.

End Coordinator.

Arguments Eff {M A} retval after events.
Arguments retval {M A} e.
Arguments after {M A} e.
Arguments events {M A} e.

(** ** An implementation of the managers, after the design document

    Everything in this module stands for code that is not part of
    bgpstream.c.  The layout of the data interface manager is the one of
    [struct_bgpstream_datasource_mgr_t] in bgpstream_datasource.h. *)

Module SpecModel.

Local Open Scope string_scope.
Local Open Scope Z_scope.

(** *** Shared types *)

Inductive dump_type : Type := RIB | UPDATES.

Definition dump_rank (t : dump_type) : Z :=
  match t with RIB => 0 | UPDATES => 1 end.

(** One decoded MRT message of an archive file. *)
Record mrt_entry : Type := mk_entry {
  mrt_time : Z;
  mrt_raw : string
}.

(** Modelled from the spec: the input descriptor of section 3 (path, type,
    collector, project, file timestamp, initial scan time).  [in_dump] is
    what the MRT decoder yields for the file, [None] when the file cannot
    be read. *)
Record input_descriptor : Type := mk_input {
  in_path : string;
  in_type : dump_type;
  in_collector : string;
  in_project : string;
  in_filetime : Z;
  in_scantime : Z;
  in_dump : option (list mrt_entry)
}.

(** Modelled from the spec: the record attributes handed to the caller. *)
Record bgp_record : Type := mk_record {
  rec_time : Z;
  rec_collector : string;
  rec_project : string;
  rec_type : dump_type;
  rec_raw : string
}.

(** The caller's [bgpstream_record_t]: the back pointer [record->bs] (set
    or not) and the record it currently holds. *)
Record bgpstream_record_t : Type := mk_bgpstream_record {
  rec_bs : bool;
  rec_data : option bgp_record
}.

(** *** Filter set *)

Inductive filter_kind : Type :=
| FILTER_COLLECTOR
| FILTER_PROJECT
| FILTER_PEER_ASN
| FILTER_PREFIX
| FILTER_ELEM_TYPE.

(** Modelled from the spec: the filter set of sections 3 and 4.1: the
    time intervals in the order they were added, the RIB period and the
    other predicates as (kind, value) pairs. *)
Record filter_set : Type := mk_filter_set {
  intervals : list (Z * Z);
  rib_period : option Z;
  filters : list (filter_kind * string)
}.

Definition filter_set_empty : filter_set := mk_filter_set [] None [].

(** Modelled from the spec: [add(kind, value)] stores the predicate. *)
Definition filter_add (fs : filter_set) (k : filter_kind) (v : string)
    : filter_set :=
  mk_filter_set (intervals fs) (rib_period fs) (filters fs ++ [(k, v)]).

(** Modelled from the spec: [add_rib_period(seconds)] sets the RIB window. *)
Definition rib_period_filter_add (fs : filter_set) (period : Z)
    : filter_set :=
  mk_filter_set (intervals fs) (Some period) (filters fs).

(** Modelled from the spec: [add_interval(begin, end)] appends one
    interval. *)
Definition interval_filter_add (fs : filter_set) (begin_time end_time : Z)
    : filter_set :=
  mk_filter_set (intervals fs ++ [(begin_time, end_time)])
    (rib_period fs) (filters fs).

(** Modelled from the spec: [validate()] fails when no time interval was
    ever added. *)
Definition filter_validate (fs : filter_set) : Z :=
  match intervals fs with
  | [] => -1
  | _ :: _ => 0
  end.

(** *** Duration specifiers *)

Definition digit_value (c : Ascii.ascii) : option Z :=
  let n := Z.of_nat (Ascii.nat_of_ascii c) in
  if (48 <=? n) && (n <=? 57) then Some (n - 48) else None.

(** Reads the decimal digits at the front of [s]: their number, their
    value on top of [acc], and the rest of the string. *)
Fixpoint read_digits (acc : Z) (s : string) : nat * Z * string :=
  match s with
  | EmptyString => (O, acc, s)
  | String c s' =>
      match digit_value c with
      | Some d =>
          let '(n, v, rest) := read_digits (10 * acc + d) s' in
          (S n, v, rest)
      | None => (O, acc, s)
      end
  end.

Definition unit_seconds (u : string) : option Z :=
  if String.eqb u EmptyString then Some 1
  else if String.eqb u "s" then Some 1
  else if String.eqb u "m" then Some 60
  else if String.eqb u "h" then Some 3600
  else if String.eqb u "d" then Some 86400
  else if String.eqb u "w" then Some 604800
  else None.

(** Modelled from the spec: duration specifiers are digits followed by at
    most one of s, m, h, d, w (seconds when there is none). *)
Definition parse_duration (s : string) : option Z :=
  match read_digits 0 s with
  | (O, _, _) => None
  | (S _, v, rest) =>
      match unit_seconds rest with
      | Some u => Some (v * u)
      | None => None
      end
  end.

(** Modelled from the spec: [bgpstream_time_calc_recent_interval] turns a
    duration specifier into the interval from [now - duration] to [now]
    and returns 0 when the specifier cannot be parsed. *)
Definition time_calc_recent_interval (now : Z) (interval : string)
    : Z * (Z * Z) :=
  match parse_duration interval with
  | Some d => (1, (now - d, now))
  | None => (0, (0, 0))
  end.

(** Modelled from the spec: the grammar of duration specifiers, one or
    more decimal digits followed by at most one of the letters s, m, h, d,
    w, written out without reference to the parser, and what a specifier
    stands for: the decimal number times the length of the unit in
    seconds, seconds being the unit when none is given. *)
Inductive time_unit : Type := SECONDS | MINUTES | HOURS | DAYS | WEEKS.

Definition unit_suffix (u : option time_unit) : string :=
  match u with
  | None => EmptyString
  | Some SECONDS => "s"
  | Some MINUTES => "m"
  | Some HOURS => "h"
  | Some DAYS => "d"
  | Some WEEKS => "w"
  end.

Definition unit_length (u : option time_unit) : Z :=
  match u with
  | None => 1
  | Some SECONDS => 1
  | Some MINUTES => 60
  | Some HOURS => 60 * 60
  | Some DAYS => 24 * 60 * 60
  | Some WEEKS => 7 * 24 * 60 * 60
  end.

Definition is_digit (c : Ascii.ascii) : bool :=
  (48 <=? Z.of_nat (Ascii.nat_of_ascii c))
  && (Z.of_nat (Ascii.nat_of_ascii c) <=? 57).

Fixpoint all_digits (s : string) : bool :=
  match s with
  | EmptyString => true
  | String c s' => is_digit c && all_digits s'
  end.

(** The number a string of digits denotes: every digit counts with the
    power of ten of its position. *)
Fixpoint decimal (s : string) : Z :=
  match s with
  | EmptyString => 0
  | String c s' =>
      (Z.of_nat (Ascii.nat_of_ascii c) - 48)
      * 10 ^ Z.of_nat (String.length s')
      + decimal s'
  end.

(** A string that is empty or starts with something that is no digit. *)
Definition no_digit_ahead (rest : string) : Prop :=
  match rest with
  | EmptyString => True
  | String c _ => is_digit c = false
  end.

(** [s] is a duration specifier that stands for [d] seconds. *)
Definition duration_specifier (s : string) (d : Z) : Prop :=
  exists digits u,
    digits <> EmptyString
    /\ all_digits digits = true
    /\ s = (digits ++ unit_suffix u)%string
    /\ d = decimal digits * unit_length u.

(** *** Data interface manager *)

Inductive bgpstream_datasource_status_t : Type :=
| BGPSTREAM_DATASOURCE_STATUS_ON
| BGPSTREAM_DATASOURCE_STATUS_OFF
| BGPSTREAM_DATASOURCE_STATUS_ERROR.

(** The backends named by the members of the manager. *)
Inductive bgpstream_data_interface_id_t : Type :=
| BGPSTREAM_DATA_INTERFACE_MYSQL
| BGPSTREAM_DATA_INTERFACE_SINGLEFILE
| BGPSTREAM_DATA_INTERFACE_CSVFILE
| BGPSTREAM_DATA_INTERFACE_SQLITE.

(** [bgpstream_data_interface_option_t], with the members initialised in
    bgpstream.c: interface, option id, name, description. *)
Record bgpstream_data_interface_option_t : Type := mk_option {
  opt_if_id : bgpstream_data_interface_id_t;
  opt_id : Z;
  opt_name : string;
  opt_description : string
}.

(** The members of the manager under "datasource specific_options"; a
    [char *] that was never set is [None]. *)
Record datasource_options : Type := mk_options {
  mysql_dbname : option string;
  mysql_user : option string;
  mysql_password : option string;
  mysql_host : option string;
  mysql_port : Z;
  mysql_socket : option string;
  mysql_dump_path : option string;
  singlefile_rib_mrtfile : option string;
  singlefile_upd_mrtfile : option string;
  csvfile_file : option string;
  sqlite_file : option string
}.

Definition no_options : datasource_options :=
  mk_options None None None None 0 None None None None None None.

(** One answer of the active backend to a query: the descriptors of the
    files it found, or a failure. *)
Inductive response : Type :=
| Descriptors (ds : list input_descriptor)
| BackendError.

(** [bgpstream_datasource_mgr_t].  The pointers to the four backend
    objects are replaced by what the active backend will do:
    [backend_opens] says whether it can be started and [backend] lists
    its answers to the coming queries (no descriptors at all once the
    list is used up).  [slept] records the arguments of the calls to
    [sleep] made so far. *)
Record bgpstream_datasource_mgr_t : Type := mk_datasource_mgr {
  datasource : bgpstream_data_interface_id_t;
  options : datasource_options;
  blocking : Z;
  backoff_time : Z;
  ds_status : bgpstream_datasource_status_t;
  backend_opens : bool;
  backend : list response;
  slept : list Z
}.

(** Modelled from the spec: first and largest waiting time of a live
    stream, 30 seconds and one hour. *)
Definition DATASOURCE_BLOCKING_MIN_WAIT : Z := 30.
Definition DATASOURCE_BLOCKING_MAX_WAIT : Z := 3600.

(** Modelled from the spec: the waiting time doubles after each empty
    query, up to the maximum. *)
Definition next_backoff (b : Z) : Z :=
  Z.min (2 * b) DATASOURCE_BLOCKING_MAX_WAIT.

(** Modelled from the spec: [set_data_interface(id)] selects the
    backend. *)
Definition datasource_mgr_set_data_interface
    (dm : bgpstream_datasource_mgr_t) (id : bgpstream_data_interface_id_t)
    : bgpstream_datasource_mgr_t :=
  mk_datasource_mgr id (options dm) (blocking dm) (backoff_time dm)
    (ds_status dm) (backend_opens dm) (backend dm) (slept dm).

Definition set_options (dm : bgpstream_datasource_mgr_t)
    (o : datasource_options) : bgpstream_datasource_mgr_t :=
  mk_datasource_mgr (datasource dm) o (blocking dm) (backoff_time dm)
    (ds_status dm) (backend_opens dm) (backend dm) (slept dm).

(** The option table of section 6, by backend and option name. *)
Definition store_option (o : datasource_options)
    (id : bgpstream_data_interface_id_t) (name value : string)
    : option datasource_options :=
  let v := Some value in
  match id with
  | BGPSTREAM_DATA_INTERFACE_MYSQL =>
      if String.eqb name "db-name" then
        Some (mk_options v (mysql_user o) (mysql_password o) (mysql_host o)
                (mysql_port o) (mysql_socket o) (mysql_dump_path o)
                (singlefile_rib_mrtfile o) (singlefile_upd_mrtfile o)
                (csvfile_file o) (sqlite_file o))
      else if String.eqb name "user" then
        Some (mk_options (mysql_dbname o) v (mysql_password o) (mysql_host o)
                (mysql_port o) (mysql_socket o) (mysql_dump_path o)
                (singlefile_rib_mrtfile o) (singlefile_upd_mrtfile o)
                (csvfile_file o) (sqlite_file o))
      else if String.eqb name "password" then
        Some (mk_options (mysql_dbname o) (mysql_user o) v (mysql_host o)
                (mysql_port o) (mysql_socket o) (mysql_dump_path o)
                (singlefile_rib_mrtfile o) (singlefile_upd_mrtfile o)
                (csvfile_file o) (sqlite_file o))
      else if String.eqb name "host" then
        Some (mk_options (mysql_dbname o) (mysql_user o) (mysql_password o) v
                (mysql_port o) (mysql_socket o) (mysql_dump_path o)
                (singlefile_rib_mrtfile o) (singlefile_upd_mrtfile o)
                (csvfile_file o) (sqlite_file o))
      else if String.eqb name "port" then
        match read_digits 0 value with
        | (S _, port, EmptyString) =>
            Some (mk_options (mysql_dbname o) (mysql_user o)
                    (mysql_password o) (mysql_host o) port (mysql_socket o)
                    (mysql_dump_path o) (singlefile_rib_mrtfile o)
                    (singlefile_upd_mrtfile o) (csvfile_file o)
                    (sqlite_file o))
        | _ => None
        end
      else if String.eqb name "socket" then
        Some (mk_options (mysql_dbname o) (mysql_user o) (mysql_password o)
                (mysql_host o) (mysql_port o) v (mysql_dump_path o)
                (singlefile_rib_mrtfile o) (singlefile_upd_mrtfile o)
                (csvfile_file o) (sqlite_file o))
      else if String.eqb name "dump-path" then
        Some (mk_options (mysql_dbname o) (mysql_user o) (mysql_password o)
                (mysql_host o) (mysql_port o) (mysql_socket o) v
                (singlefile_rib_mrtfile o) (singlefile_upd_mrtfile o)
                (csvfile_file o) (sqlite_file o))
      else None
  | BGPSTREAM_DATA_INTERFACE_SINGLEFILE =>
      if String.eqb name "rib-file" then
        Some (mk_options (mysql_dbname o) (mysql_user o) (mysql_password o)
                (mysql_host o) (mysql_port o) (mysql_socket o)
                (mysql_dump_path o) v (singlefile_upd_mrtfile o)
                (csvfile_file o) (sqlite_file o))
      else if String.eqb name "upd-file" then
        Some (mk_options (mysql_dbname o) (mysql_user o) (mysql_password o)
                (mysql_host o) (mysql_port o) (mysql_socket o)
                (mysql_dump_path o) (singlefile_rib_mrtfile o) v
                (csvfile_file o) (sqlite_file o))
      else None
  | BGPSTREAM_DATA_INTERFACE_CSVFILE =>
      if String.eqb name "csv-file" then
        Some (mk_options (mysql_dbname o) (mysql_user o) (mysql_password o)
                (mysql_host o) (mysql_port o) (mysql_socket o)
                (mysql_dump_path o) (singlefile_rib_mrtfile o)
                (singlefile_upd_mrtfile o) v (sqlite_file o))
      else None
  | BGPSTREAM_DATA_INTERFACE_SQLITE =>
      if String.eqb name "db-file" then
        Some (mk_options (mysql_dbname o) (mysql_user o) (mysql_password o)
                (mysql_host o) (mysql_port o) (mysql_socket o)
                (mysql_dump_path o) (singlefile_rib_mrtfile o)
                (singlefile_upd_mrtfile o) (csvfile_file o) v)
      else None
  end.

(** Modelled from the spec: [set_data_interface_option(option, value)]
    stores a published option of a backend and fails on an unknown option
    or a value it cannot use. *)
Definition datasource_mgr_set_data_interface_option
    (dm : bgpstream_datasource_mgr_t)
    (option_type : bgpstream_data_interface_option_t) (value : string)
    : Z * bgpstream_datasource_mgr_t :=
  match store_option (options dm) (opt_if_id option_type)
          (opt_name option_type) value with
  | Some o => (0, set_options dm o)
  | None => (-1, dm)
  end.

(** Modelled from the spec: [set_live_mode()] sets the blocking flag. *)
Definition datasource_mgr_set_blocking (dm : bgpstream_datasource_mgr_t)
    : bgpstream_datasource_mgr_t :=
  mk_datasource_mgr (datasource dm) (options dm) 1 (backoff_time dm)
    (ds_status dm) (backend_opens dm) (backend dm) (slept dm).

(** Modelled from the spec: starting the backend opens its resources and
    fails when they cannot be opened. *)
Definition datasource_mgr_start (dm : bgpstream_datasource_mgr_t)
    : Z * bgpstream_datasource_mgr_t :=
  if backend_opens dm
  then (0, mk_datasource_mgr (datasource dm) (options dm) (blocking dm)
             (backoff_time dm) BGPSTREAM_DATASOURCE_STATUS_ON
             (backend_opens dm) (backend dm) (slept dm))
  else (-1, mk_datasource_mgr (datasource dm) (options dm) (blocking dm)
              (backoff_time dm) BGPSTREAM_DATASOURCE_STATUS_ERROR
              (backend_opens dm) (backend dm) (slept dm)).

(** Modelled from the spec: the refill protocol of section 4.4.  The
    backend is queried until it answers with descriptors or fails.  An
    answer without descriptors ends the query of a bounded stream; a live
    stream sleeps [backoff_time] seconds, doubles the waiting time up to
    the maximum and asks again.  Any answer with descriptors puts the
    waiting time back to its first value.  A live stream whose backend
    has nothing more to say waits for ever ([None]).

    The result is the number of descriptors (negative on failure), the
    descriptors, and what is left of the manager's state:
    the answers not yet consumed, the waiting time and the sleeps. *)
Fixpoint query_backend (answers : list response) (live : bool)
    (backoff : Z) (sleeps : list Z)
    : option (Z * list input_descriptor * (list response * Z * list Z)) :=
  match answers with
  | [] =>
      if live then None else Some (0, [], ([], backoff, sleeps))
  | BackendError :: rest =>
      Some (-1, [], (rest, backoff, sleeps))
  | Descriptors [] :: rest =>
      if live
      then query_backend rest live (next_backoff backoff)
             (sleeps ++ [backoff])
      else Some (0, [], (rest, backoff, sleeps))
  | Descriptors (d :: ds) :: rest =>
      Some (Z.of_nat (List.length (d :: ds)), d :: ds,
            (rest, DATASOURCE_BLOCKING_MIN_WAIT, sleeps))
  end.

(** *** Input queue *)

(** Modelled from the spec: the queue is ordered by file timestamp, a RIB
    before the UPDATES of the same time. *)
Definition input_before (a b : input_descriptor) : bool :=
  (in_filetime a <? in_filetime b)
  || ((in_filetime a =? in_filetime b)
      && (dump_rank (in_type a) <? dump_rank (in_type b))).

Fixpoint input_queue_insert (d : input_descriptor)
    (q : list input_descriptor) : list input_descriptor :=
  match q with
  | [] => [d]
  | x :: q' =>
      if input_before d x then d :: x :: q'
      else x :: input_queue_insert d q'
  end.

Definition input_queue_push_all (ds q : list input_descriptor)
    : list input_descriptor :=
  fold_left (fun acc d => input_queue_insert d acc) ds q.

(** Modelled from the spec: a query of the data interface appends what the
    backend found to the input queue and returns how many descriptors
    were found. *)
Definition datasource_mgr_get_queue (dm : bgpstream_datasource_mgr_t)
    (im : list input_descriptor)
    : option (Z * bgpstream_datasource_mgr_t * list input_descriptor) :=
  match query_backend (backend dm) (negb (blocking dm =? 0))
          (backoff_time dm) (slept dm) with
  | None => None
  | Some (n, ds, (rest, backoff, sleeps)) =>
      Some (n,
            mk_datasource_mgr (datasource dm) (options dm) (blocking dm)
              backoff
              (if n <? 0 then BGPSTREAM_DATASOURCE_STATUS_ERROR
               else ds_status dm)
              (backend_opens dm) rest sleeps,
            input_queue_push_all ds im)
  end.

(** *** Reader set *)

(** What lies outside the library: how the filter set answers its coarse
    (per file) and fine (per record) queries on decoded data, and the
    backend a fresh data interface manager is connected to. *)
Record setting : Type := mk_setting {
  coarse_match : filter_set -> input_descriptor -> bool;
  fine_match : filter_set -> bgp_record -> bool;
  default_interface : bgpstream_data_interface_id_t;
  catalog_opens : bool;
  catalog : list response
}.

(** Modelled from the spec: a reader in state READY: its input, its head
    record, the messages of the file not yet decoded and its insertion
    sequence number. *)
Record reader : Type := mk_reader {
  rd_input : input_descriptor;
  rd_head : bgp_record;
  rd_todo : list mrt_entry;
  rd_seq : nat
}.

(** Modelled from the spec: the reader set, smallest key first. *)
Record reader_set : Type := mk_reader_set {
  readers : list reader;
  next_seq : nat
}.

Definition make_record (d : input_descriptor) (e : mrt_entry) : bgp_record :=
  mk_record (mrt_time e) (in_collector d) (in_project d) (in_type d)
    (mrt_raw e).

(** Modelled from the spec: the merge order of section 4.4: head
    timestamp, then collector name, then RIB before UPDATES, then
    insertion sequence. *)
Definition reader_leb (a b : reader) : bool :=
  let ta := rec_time (rd_head a) in
  let tb := rec_time (rd_head b) in
  let ca := in_collector (rd_input a) in
  let cb := in_collector (rd_input b) in
  let ra := dump_rank (in_type (rd_input a)) in
  let rb := dump_rank (in_type (rd_input b)) in
  (ta <? tb)
  || ((ta =? tb)
      && (String.ltb ca cb
          || (String.eqb ca cb
              && ((ra <? rb)
                  || ((ra =? rb) && Nat.leb (rd_seq a) (rd_seq b)))))).

Fixpoint reader_insert (r : reader) (l : list reader) : list reader :=
  match l with
  | [] => [r]
  | x :: l' =>
      if reader_leb r x then r :: x :: l' else x :: reader_insert r l'
  end.

Section Readers.

Variable w : setting.

(** Modelled from the spec: decode and filter until a record is
    admitted; [None] at the end of the file. *)
Fixpoint next_admitted (fs : filter_set) (d : input_descriptor)
    (es : list mrt_entry) : option (bgp_record * list mrt_entry) :=
  match es with
  | [] => None
  | e :: es' =>
      if fine_match w fs (make_record d e)
      then Some (make_record d e, es')
      else next_admitted fs d es'
  end.

(** Modelled from the spec: opening a reader.  A file the filters do not
    admit, a file that cannot be read and a file without any admitted
    record give no reader. *)
Definition reader_open (fs : filter_set) (d : input_descriptor)
    (seq : nat) : option reader :=
  if coarse_match w fs d then
    match in_dump d with
    | None => None
    | Some es =>
        match next_admitted fs d es with
        | None => None
        | Some (h, todo) => Some (mk_reader d h todo seq)
        end
    end
  else None.

Definition reader_set_add_one (fs : filter_set) (rs : reader_set)
    (d : input_descriptor) : reader_set :=
  match reader_open fs d (next_seq rs) with
  | Some r => mk_reader_set (reader_insert r (readers rs))
                (S (next_seq rs))
  | None => mk_reader_set (readers rs) (S (next_seq rs))
  end.

(** Modelled from the spec: the inputs of a queue are opened in queue
    order and join the reader set. *)
Definition reader_set_add (rs : reader_set) (q : list input_descriptor)
    (fs : filter_set) : reader_set :=
  fold_left (reader_set_add_one fs) q rs.

(** Modelled from the spec: the emission step of section 4.4: remove
    the reader with the smallest key, deliver its head record, advance
    it, and put it back unless its file is exhausted.  The return value
    is 1 when a record was delivered and 0 on an empty set. *)
Definition reader_set_get_next_record (rs : reader_set)
    (record : bgpstream_record_t) (fs : filter_set)
    : Z * reader_set * bgpstream_record_t :=
  match readers rs with
  | [] => (0, rs, record)
  | r :: others =>
      let others' :=
        match next_admitted fs (rd_input r) (rd_todo r) with
        | None => others
        | Some (h, todo) =>
            reader_insert (mk_reader (rd_input r) h todo (rd_seq r))
              others
        end in
      (1, mk_reader_set others' (next_seq rs),
       mk_bgpstream_record (rec_bs record) (Some (rd_head r)))
  end.

(** The managers of this module as an implementation of the interface
    of the coordinator. *)
Definition spec_managers : Managers := {|
  filter_mgr_t := filter_set;
  di_mgr_t := bgpstream_datasource_mgr_t;
  input_mgr_t := list input_descriptor;
  reader_mgr_t := reader_set;
  input_t := list input_descriptor;
  record_t := bgpstream_record_t;
  filter_type_t := filter_kind;
  data_interface_id_t := bgpstream_data_interface_id_t;
  data_interface_option_t := bgpstream_data_interface_option_t;
  bgpstream_filter_mgr_create := Some filter_set_empty;
  bgpstream_di_mgr_create := fun _ =>
    Some (mk_datasource_mgr (default_interface w) no_options 0
            DATASOURCE_BLOCKING_MIN_WAIT BGPSTREAM_DATASOURCE_STATUS_OFF
            (catalog_opens w) (catalog w) []);
  bgpstream_input_mgr_create := Some [];
  bgpstream_reader_mgr_create := fun _ => Some (mk_reader_set [] O);
  bgpstream_filter_mgr_filter_add := filter_add;
  bgpstream_filter_mgr_rib_period_filter_add := rib_period_filter_add;
  bgpstream_filter_mgr_interval_filter_add := interval_filter_add;
  bgpstream_filter_mgr_validate := filter_validate;
  bgpstream_time_calc_recent_interval := time_calc_recent_interval;
  bgpstream_di_mgr_set_data_interface := datasource_mgr_set_data_interface;
  bgpstream_di_mgr_set_data_interface_option :=
    datasource_mgr_set_data_interface_option;
  bgpstream_di_mgr_get_data_interface_id := datasource;
  bgpstream_di_mgr_set_blocking := datasource_mgr_set_blocking;
  bgpstream_di_mgr_start := fun _ dm => datasource_mgr_start dm;
  bgpstream_di_mgr_get_queue := fun _ dm im =>
    datasource_mgr_get_queue dm im;
  bgpstream_input_mgr_is_empty := fun im =>
    match im with [] => true | _ :: _ => false end;
  bgpstream_input_mgr_get_queue_to_process := fun im => (im, []);
  bgpstream_reader_mgr_is_empty := fun rs =>
    match readers rs with [] => true | _ :: _ => false end;
  bgpstream_reader_mgr_add := reader_set_add;
  bgpstream_reader_mgr_get_next_record := reader_set_get_next_record;
  bgpstream_record_clear := fun r => mk_bgpstream_record (rec_bs r) None;
  bgpstream_record_set_bs := fun r => mk_bgpstream_record true (rec_data r)
|}.

(** *** A caller pumping the stream *)

(** A loop bound that is large enough for one call of
    [bgpstream_get_next_record]: every iteration of its outer loop
    uses up an answer of the backend. *)
Definition enough_fuel (s : @bgpstream_t spec_managers) : nat :=
  S (List.length (backend (di_mgr s))).

(** The timestamps handed to a caller that calls
    [bgpstream_get_next_record] [calls] times in a row with the same
    record buffer and keeps the record of every call that returns a
    positive value.  A call that blocks for ever ends the sequence;
    [None] if a call ran out of fuel. *)
Fixpoint delivered (calls : nat) (s : @bgpstream_t spec_managers)
    (record : bgpstream_record_t) : option (list Z) :=
  match calls with
  | O => Some []
  | S calls' =>
      match bgpstream_get_next_record (M := spec_managers)
              (enough_fuel s) (Some s) record with
      | Done e =>
          match after e with
          | Some s' =>
              let '(rc, record') := retval e in
              match delivered calls' s' record' with
              | Some ts =>
                  if 0 <? rc then
                    match rec_data record' with
                    | Some r => Some (rec_time r :: ts)
                    | None => Some ts
                    end
                  else Some ts
              | None => None
              end
          | None => Some []
          end
      | Blocked => Some []
      | NullDeref => Some []
      | OutOfFuel => None
      end
  end.

End Readers.

(** *** Files in time order *)

(** [ts] is non-decreasing and starts at [lo] or later. *)
Fixpoint nondecreasing_from (lo : Z) (ts : list Z) : bool :=
  match ts with
  | [] => true
  | t :: ts' => (lo <=? t) && nondecreasing_from t ts'
  end.

(** The timestamps of the messages of a file, in file order. *)
Definition file_times (d : input_descriptor) : list Z :=
  match in_dump d with
  | Some es => map mrt_time es
  | None => []
  end.

Definition high_time (hi : Z) (ts : list Z) : Z := fold_left Z.max ts hi.

(** The largest of [hi] and the timestamps in the files [ds]. *)
Definition batch_high (hi : Z) (ds : list input_descriptor) : Z :=
  fold_left (fun acc d => high_time acc (file_times d)) ds hi.

(** Every answer of the backend holds files whose messages are in time
    order and not older than [lo] nor than any message of the files of
    an earlier answer. *)
Fixpoint catalog_in_time_order (lo : Z) (answers : list response) : bool :=
  match answers with
  | [] => true
  | BackendError :: rest => catalog_in_time_order lo rest
  | Descriptors ds :: rest =>
      forallb (fun d => nondecreasing_from lo (file_times d)) ds
      && catalog_in_time_order (batch_high lo ds) rest
  end.

(** *** The order kept by the reader set *)

Definition reader_time (r : reader) : Z := rec_time (rd_head r).

(** The timestamps a reader still has to deliver, head first. *)
Definition reader_times (r : reader) : list Z :=
  reader_time r :: map mrt_time (rd_todo r).

Definition times_in_order (lo hi : Z) (ts : list Z) : Prop :=
  nondecreasing_from lo ts = true /\ Forall (fun t => t <= hi) ts.

Definition readers_in_order (lo hi : Z) (l : list reader) : Prop :=
  StronglySorted (fun a b => reader_time a <= reader_time b) l
  /\ Forall (fun r => times_in_order lo hi (reader_times r)) l.

(** A stream between two calls of [bgpstream_get_next_record]: it is on,
    its input queue has been drained, what its readers hold is in time
    order between [lo] and some [hi], and the files still to come are in
    time order from [hi] on. *)
Definition stream_in_order (w : setting) (lo : Z)
    (s : @bgpstream_t (spec_managers w)) : Prop :=
  status s = BGPSTREAM_STATUS_ON
  /\ input_mgr s = []
  /\ exists hi,
       lo <= hi
       /\ readers_in_order lo hi (readers (reader_mgr s))
       /\ catalog_in_time_order hi (backend (di_mgr s)) = true.

(** *** Waiting times *)

(** The first [k] waiting times of a live stream that starts waiting
    with [b] seconds. *)
Fixpoint waits (k : nat) (b : Z) : list Z :=
  match k with
  | O => []
  | S k' => b :: waits k' (next_backoff b)
  end.

End SpecModel.

(** ** Observations used in the statements *)

Definition is_log_err (e : event) : bool :=
  match e with
  | EvLogErr _ => true
  | _ => false
  end.

(** A call reports an error to its caller through a negative return value
    or through the error log. *)
Definition logs_error (evs : list event) : bool := existsb is_log_err evs.

(** The sub-objects whose creation, respectively destruction, appears in a
    list of actions, in the order of the actions. *)
Fixpoint created (evs : list event) : list component :=
  match evs with
  | [] => []
  | EvCreate c :: evs' => c :: created evs'
  | _ :: evs' => created evs'
  end.

Fixpoint destroyed (evs : list event) : list component :=
  match evs with
  | [] => []
  | EvDestroy c :: evs' => c :: destroyed evs'
  | _ :: evs' => destroyed evs'
  end.

(** A void call reports an error to its caller when it returns after
    having written to the error log; there is no return value to carry
    one. *)
Definition reports_error {M : Managers} (r : result (effect unit)) : Prop :=
  exists e, r = Done e /\ logs_error (events e) = true.

(** ** Concrete streams *)

Module Fixture.

Import SpecModel.
Local Open Scope string_scope.
Local Open Scope Z_scope.

(** Filters that admit everything, a single-file backend. *)
Definition open_setting : setting :=
  mk_setting (fun _ _ => true) (fun _ _ => true)
    BGPSTREAM_DATA_INTERFACE_SINGLEFILE true [].

Definition manager_of (live : Z) (answers : list response)
    : bgpstream_datasource_mgr_t :=
  mk_datasource_mgr BGPSTREAM_DATA_INTERFACE_SINGLEFILE no_options live
    DATASOURCE_BLOCKING_MIN_WAIT BGPSTREAM_DATASOURCE_STATUS_OFF true
    answers [].

Definition stream : Type := @bgpstream_t (spec_managers open_setting).

(** A stream in the given status with one interval and nothing open. *)
Definition stream_of (st : bgpstream_status) (live : Z)
    (answers : list response) : stream :=
  mk_bgpstream (M := spec_managers open_setting)
    (mk_filter_set [(0, 100)] None []) (manager_of live answers) []
    (mk_reader_set [] O) st.

Definition blank_record : bgpstream_record_t :=
  mk_bgpstream_record false None.

(** An UPDATES file whose second message is older than its first. *)
Definition unordered_file : input_descriptor :=
  mk_input "updates.20.mrt" UPDATES "rrc00" "ris" 20 20
    (Some [mk_entry 25 "a"; mk_entry 23 "b"]).

Definition rib_file : input_descriptor :=
  mk_input "rib.10.mrt" RIB "rrc00" "ris" 10 10
    (Some [mk_entry 10 "a"; mk_entry 10 "b"; mk_entry 12 "c"]).

Definition updates_file : input_descriptor :=
  mk_input "updates.10.mrt" UPDATES "rrc01" "ris" 10 10
    (Some [mk_entry 11 "a"; mk_entry 15 "b"]).

Definition later_file : input_descriptor :=
  mk_input "updates.30.mrt" UPDATES "rrc00" "ris" 30 30
    (Some [mk_entry 30 "a"; mk_entry 31 "b"]).

(** A started stream whose catalog first lists an UPDATES and a RIB file
    of the same time, then nothing, then a later UPDATES file. *)
Definition ordered_stream : stream :=
  stream_of BGPSTREAM_STATUS_ON 0
    [Descriptors [updates_file; rib_file]; Descriptors [];
     Descriptors [later_file]].

Definition unordered_stream : stream :=
  stream_of BGPSTREAM_STATUS_ON 0 [Descriptors [unordered_file]].

(** A started stream whose catalog lists a file only after a file with
    younger messages has been listed; each file is in time order. *)
Definition late_listing_stream : stream :=
  stream_of BGPSTREAM_STATUS_ON 0
    [Descriptors [later_file]; Descriptors [rib_file]].

Definition fresh_stream : stream := stream_of BGPSTREAM_STATUS_ALLOCATED 0 [].
Definition started_stream : stream := stream_of BGPSTREAM_STATUS_ON 0 [].
Definition stopped_stream : stream := stream_of BGPSTREAM_STATUS_OFF 0 [].
Definition failing_stream : stream :=
  stream_of BGPSTREAM_STATUS_ON 0 [BackendError].

Definition csv_file_option : bgpstream_data_interface_option_t :=
  mk_option BGPSTREAM_DATA_INTERFACE_CSVFILE 0 "csv-file"
    "csv file listing the mrt data to read".

(** A live manager whose backend finds nothing three times in a row. *)
Definition live_manager : bgpstream_datasource_mgr_t :=
  manager_of 1
    [Descriptors []; Descriptors []; Descriptors [];
     Descriptors [later_file]].

End Fixture.

(** ** Looking up the options of a data interface *)

(** The two things [bgpstream_get_data_interface_option_by_name] needs
    beyond the managers: the manager call that publishes the options of an
    interface, returning their number and, through its last argument, the
    array ([None] when it stores NULL), and the member [name] of an
    option. *)
Class OptionTable (M : Managers) : Type := {
  bgpstream_di_mgr_get_data_interface_options :
    di_mgr_t -> data_interface_id_t ->
    Z * option (list data_interface_option_t);
  option_name : data_interface_option_t -> string
}.

Section Options.

Context {M : Managers} {T : OptionTable M}.

(** What the lookup returns: the address of [options[i]], NULL, or nothing
    sensible because [options[i]] lies behind the end of the array. *)
Inductive option_lookup : Type :=
| OptionAt (i : nat) (o : data_interface_option_t)
| OptionNULL
| OptionOutOfBounds (i : nat).

(** [bgpstream_get_data_interface_options] *)
Definition bgpstream_get_data_interface_options (bs : handle)
    (if_id : data_interface_id_t)
    : result (effect (Z * option (list data_interface_option_t))) :=
  match bs with
  | None => NullDeref
  | Some s =>
      Done (Eff (bgpstream_di_mgr_get_data_interface_options (di_mgr s) if_id)
              (Some s) [])
  end.

(** The loop [for (i = 0; i < opt_cnt; i++)] of the lookup, entered at
    index [i] with [todo] iterations to go. *)
Fixpoint scan_options (name : string)
    (options : list data_interface_option_t) (i todo : nat) : option_lookup :=
  match todo with
  | O => OptionNULL
  | S todo' =>
      match nth_error options i with
      | None => OptionOutOfBounds i
      | Some o =>
          if String.eqb (option_name o) name then OptionAt i o
          else scan_options name options (S i) todo'
      end
  end.

(** [bgpstream_get_data_interface_option_by_name] *)
Definition bgpstream_get_data_interface_option_by_name (bs : handle)
    (if_id : data_interface_id_t) (name : string)
    : result (effect option_lookup) :=
  r <- bgpstream_get_data_interface_options bs if_id ;;
  let '(opt_cnt, options) := retval r in
  match options with
  | None => Done (Eff OptionNULL (after r) [])
  | Some arr =>
      if opt_cnt =? 0 then Done (Eff OptionNULL (after r) [])
      else Done (Eff (scan_options name arr O (Z.to_nat opt_cnt))
                   (after r) [])
  end.

End Options.

(** ** Sequences of calls on one stream *)

Section Calls.

Context {M : Managers}.

(** A call of one of the functions that take a stream and leave it
    behind, with its other arguments. *)
Inductive call : Type :=
| AddFilter (filter_type : filter_type_t) (filter_value : string)
| AddRibPeriodFilter (period : Z)
| AddRecentIntervalFilter (now : Z) (interval : string) (islive : Z)
| AddIntervalFilter (begin_time end_time : Z)
| SetDataInterfaceOption (option_type : data_interface_option_t)
    (option_value : string)
| SetDataInterface (di : data_interface_id_t)
| SetLiveMode
| Start
| GetNextRecord (fuel : nat) (record : record_t).

(** The object behind the handle once the call has returned. *)
Definition after_call {A : Type} (r : result (effect A))
    : option bgpstream_t :=
  match r with
  | Done e => after e
  | NullDeref => None
  | Blocked => None
  | OutOfFuel => None
  end.

Definition run_call (c : call) (s : bgpstream_t) : option bgpstream_t :=
  match c with
  | AddFilter ft v => after_call (bgpstream_add_filter (Some s) ft v)
  | AddRibPeriodFilter period =>
      after_call (bgpstream_add_rib_period_filter (Some s) period)
  | AddRecentIntervalFilter now interval islive =>
      after_call
        (bgpstream_add_recent_interval_filter now (Some s) interval islive)
  | AddIntervalFilter b e =>
      after_call (bgpstream_add_interval_filter (Some s) b e)
  | SetDataInterfaceOption o v =>
      after_call (bgpstream_set_data_interface_option (Some s) o v)
  | SetDataInterface di =>
      after_call (bgpstream_set_data_interface (Some s) di)
  | SetLiveMode => after_call (bgpstream_set_live_mode (Some s))
  | Start => after_call (bgpstream_start (Some s))
  | GetNextRecord fuel record =>
      after_call (bgpstream_get_next_record fuel (Some s) record)
  end.

(** The calls one after the other on the same stream; [None] as soon as
    one of them does not return. *)
Fixpoint run_calls (cs : list call) (s : bgpstream_t) : option bgpstream_t :=
  match cs with
  | [] => Some s
  | c :: cs' =>
      match run_call c s with
      | Some s' => run_calls cs' s'
      | None => None
      end
  end.

Definition is_start (c : call) : bool :=
  match c with
  | Start => true
  | _ => false
  end.

Definition is_get_next_record (c : call) : bool :=
  match c with
  | GetNextRecord _ _ => true
  | _ => false
  end.

(** The calls that go to the filter manager without asking for live
    mode. *)
Definition is_plain_filter_call (c : call) : bool :=
  match c with
  | AddFilter _ _ => true
  | AddRibPeriodFilter _ => true
  | AddRecentIntervalFilter _ _ islive => islive =? 0
  | AddIntervalFilter _ end_time => negb (end_time =? BGPSTREAM_FOREVER)
  | _ => false
  end.

End Calls.

(** ** More concrete streams *)

Module Fixture2.

Import SpecModel Fixture.
Local Open Scope string_scope.
Local Open Scope Z_scope.

(** The option table of bgpstream.c, [bgpstream_sqlite_options]; the
    default file name in the description comes from a macro of another
    header and is an argument here. *)
Definition bgpstream_sqlite_options (db_file_default : string)
    : list bgpstream_data_interface_option_t :=
  [mk_option BGPSTREAM_DATA_INTERFACE_SQLITE 0 "db-file"
     ("sqlite database (default: " ++ db_file_default ++ ")")].

Definition singlefile_options : list bgpstream_data_interface_option_t :=
  [mk_option BGPSTREAM_DATA_INTERFACE_SINGLEFILE 0 "rib-file"
     "rib mrt file to read";
   mk_option BGPSTREAM_DATA_INTERFACE_SINGLEFILE 1 "upd-file"
     "updates mrt file to read";
   mk_option BGPSTREAM_DATA_INTERFACE_SINGLEFILE 2 "rib-file"
     "a second entry with the name of the first"].

(** A table that publishes the options above; for the CSV interface it
    claims two options although its array is empty, and for the SQL
    interface it stores NULL. *)
Definition sample_options (dm : bgpstream_datasource_mgr_t)
    (if_id : bgpstream_data_interface_id_t)
    : Z * option (list bgpstream_data_interface_option_t) :=
  match if_id with
  | BGPSTREAM_DATA_INTERFACE_SQLITE =>
      (1, Some (bgpstream_sqlite_options "bgpstream.db"))
  | BGPSTREAM_DATA_INTERFACE_SINGLEFILE => (3, Some singlefile_options)
  | BGPSTREAM_DATA_INTERFACE_CSVFILE => (2, Some [])
  | BGPSTREAM_DATA_INTERFACE_MYSQL => (0, None)
  end.

Definition sample_table : OptionTable (spec_managers open_setting) :=
  @Build_OptionTable (spec_managers open_setting) sample_options opt_name.

(** Managers without any state whose data interface always reports one
    result and never puts anything in the input queue; [reader_ok] says
    whether the reader manager can be created. *)
Definition idle_managers (reader_ok : bool) : Managers := {|
  filter_mgr_t := unit;
  di_mgr_t := unit;
  input_mgr_t := unit;
  reader_mgr_t := unit;
  input_t := unit;
  record_t := unit;
  filter_type_t := unit;
  data_interface_id_t := unit;
  data_interface_option_t := unit;
  bgpstream_filter_mgr_create := Some tt;
  bgpstream_di_mgr_create := fun _ => Some tt;
  bgpstream_input_mgr_create := Some tt;
  bgpstream_reader_mgr_create := fun _ => if reader_ok then Some tt else None;
  bgpstream_filter_mgr_filter_add := fun _ _ _ => tt;
  bgpstream_filter_mgr_rib_period_filter_add := fun _ _ => tt;
  bgpstream_filter_mgr_interval_filter_add := fun _ _ _ => tt;
  bgpstream_filter_mgr_validate := fun _ => 0;
  bgpstream_time_calc_recent_interval := fun _ _ => (0, (0, 0));
  bgpstream_di_mgr_set_data_interface := fun _ _ => tt;
  bgpstream_di_mgr_set_data_interface_option := fun _ _ _ => (0, tt);
  bgpstream_di_mgr_get_data_interface_id := fun _ => tt;
  bgpstream_di_mgr_set_blocking := fun _ => tt;
  bgpstream_di_mgr_start := fun _ _ => (0, tt);
  bgpstream_di_mgr_get_queue := fun _ _ _ => Some (1, tt, tt);
  bgpstream_input_mgr_is_empty := fun _ => true;
  bgpstream_input_mgr_get_queue_to_process := fun _ => (tt, tt);
  bgpstream_reader_mgr_is_empty := fun _ => true;
  bgpstream_reader_mgr_add := fun _ _ _ => tt;
  bgpstream_reader_mgr_get_next_record := fun _ _ _ => (1, tt, tt);
  bgpstream_record_clear := fun _ => tt;
  bgpstream_record_set_bs := fun _ => tt
|}.

Definition idle_stream : @bgpstream_t (idle_managers true) :=
  mk_bgpstream (M := idle_managers true) tt tt tt tt BGPSTREAM_STATUS_ON.

(** A started stream whose backend cannot be opened any more. *)
Definition broken_backend_stream : stream :=
  mk_bgpstream (M := spec_managers open_setting)
    (mk_filter_set [(0, 100)] None [])
    (mk_datasource_mgr BGPSTREAM_DATA_INTERFACE_SINGLEFILE no_options 0
       DATASOURCE_BLOCKING_MIN_WAIT BGPSTREAM_DATASOURCE_STATUS_ON false
       [] [])
    [] (mk_reader_set [] O) BGPSTREAM_STATUS_ON.

(** A started stream with an open reader on [later_file], and one with
    [later_file] waiting in the input queue. *)
Definition reading_stream : stream :=
  mk_bgpstream (M := spec_managers open_setting)
    (mk_filter_set [(0, 100)] None [])
    (manager_of 0 [Descriptors [rib_file]]) []
    (mk_reader_set
       [mk_reader later_file (mk_record 30 "rrc00" "ris" UPDATES "a")
          [mk_entry 31 "b"] O] 1)
    BGPSTREAM_STATUS_ON.

Definition queued_stream : stream :=
  mk_bgpstream (M := spec_managers open_setting)
    (mk_filter_set [(0, 100)] None [])
    (manager_of 0 [Descriptors [rib_file]]) [later_file]
    (mk_reader_set [] O) BGPSTREAM_STATUS_ON.

(** Sequences of calls on such streams. *)
Definition spec_call : Type := @call (spec_managers open_setting).

Definition calls_without_start : list spec_call :=
  [AddIntervalFilter 0 BGPSTREAM_FOREVER;
   SetDataInterface (M := spec_managers open_setting)
     BGPSTREAM_DATA_INTERFACE_CSVFILE;
   GetNextRecord (M := spec_managers open_setting) 3 blank_record;
   SetLiveMode].

Definition filter_calls_after_start : list spec_call :=
  [AddFilter (M := spec_managers open_setting) FILTER_COLLECTOR "rrc00";
   AddRibPeriodFilter 3600;
   AddIntervalFilter 0 BGPSTREAM_FOREVER;
   AddRecentIntervalFilter 10000 "1h" 1;
   GetNextRecord (M := spec_managers open_setting) 3 blank_record].

Definition start_read_start : list spec_call :=
  [Start; GetNextRecord (M := spec_managers open_setting) 3 blank_record;
   Start].

Definition configure_and_start : list spec_call :=
  [AddIntervalFilter 0 BGPSTREAM_FOREVER;
   SetDataInterfaceOption (M := spec_managers open_setting)
     csv_file_option "list.csv";
   Start].

Definition plain_filter_calls : list spec_call :=
  [AddFilter (M := spec_managers open_setting) FILTER_PROJECT "ris";
   AddIntervalFilter 200 300;
   AddRecentIntervalFilter 10000 "1h" 0;
   AddRibPeriodFilter 3600].

End Fixture2.

(** * Properties of the coordinator, for any managers *)

Section CoordinatorFacts.

Context {M : Managers}.

Lemma status_eqb_eq (a b : bgpstream_status) :
  status_eqb a b = true <-> a = b.
Proof. destruct a, b; simpl; split; congruence. Qed.

Lemma status_eqb_neq (a b : bgpstream_status) :
  a <> b -> status_eqb a b = false.
Proof.
  intros Hne. destruct (status_eqb a b) eqn:E; [|reflexivity].
  apply status_eqb_eq in E. contradiction.
Qed.

(** C2 (as amended): outside status ALLOCATED the four filter calls
    return with the object as it was, so neither the filter set nor the
    live-mode flag changes, and nothing is written to the error log;
    outside status ON [bgpstream_get_next_record] returns -1 whatever the
    loop bound, and leaves both the object and the caller's record as
    they were. *)
Theorem lifecycle_gating (s : bgpstream_t) (record : record_t) :
  (status s <> BGPSTREAM_STATUS_ALLOCATED ->
     (forall ft v,
        bgpstream_add_filter (Some s) ft v = Done (Eff tt (Some s) []))
     /\ (forall period,
        bgpstream_add_rib_period_filter (Some s) period
        = Done (Eff tt (Some s) []))
     /\ (forall now interval islive,
        bgpstream_add_recent_interval_filter now (Some s) interval islive
        = Done (Eff tt (Some s) []))
     /\ (forall begin_time end_time,
        bgpstream_add_interval_filter (Some s) begin_time end_time
        = Done (Eff tt (Some s) [])))
  /\ (status s <> BGPSTREAM_STATUS_ON ->
      forall fuel,
        bgpstream_get_next_record fuel (Some s) record
        = Done (Eff (-1, record) (Some s) [])).
Proof.
  split; intros Hst.
  - apply status_eqb_neq in Hst.
    unfold bgpstream_add_filter, bgpstream_add_rib_period_filter,
      bgpstream_add_recent_interval_filter, bgpstream_add_interval_filter.
    rewrite Hst. simpl. repeat split; reflexivity.
  - intros fuel. apply status_eqb_neq in Hst.
    unfold bgpstream_get_next_record. rewrite Hst. reflexivity.
Qed.

(** C3 (as amended): in every status [bgpstream_set_data_interface] and
    [bgpstream_set_data_interface_option] hand the request to the data
    interface manager; the object afterwards holds the manager's new
    state, the option call returns the manager's return code, and the
    status, the filters, the input queue and the readers are as
    before. *)
Theorem data_interface_setters_delegate (s : bgpstream_t)
    (di : data_interface_id_t) (opt : data_interface_option_t)
    (value : string) :
  bgpstream_set_data_interface (Some s) di
  = Done (Eff tt
      (Some (mk_bgpstream (filter_mgr s)
               (bgpstream_di_mgr_set_data_interface (di_mgr s) di)
               (input_mgr s) (reader_mgr s) (status s))) [])
  /\ bgpstream_set_data_interface_option (Some s) opt value
     = Done (Eff
         (fst (bgpstream_di_mgr_set_data_interface_option (di_mgr s)
                 opt value))
         (Some (mk_bgpstream (filter_mgr s)
                  (snd (bgpstream_di_mgr_set_data_interface_option
                          (di_mgr s) opt value))
                  (input_mgr s) (reader_mgr s) (status s))) []).
Proof.
  split.
  - reflexivity.
  - unfold bgpstream_set_data_interface_option.
    destruct (bgpstream_di_mgr_set_data_interface_option (di_mgr s)
                opt value) as [rc dm].
    reflexivity.
Qed.

(** C4: from status ALLOCATED, [bgpstream_start] returns.  When the
    validation of the filters fails it returns the validator's non-zero
    code, the data interface is not started and the object is untouched;
    when the data interface fails to start it returns -1; in both cases
    the status afterwards is ALLOCATED.  When both succeed it returns 0
    and the status is ON. *)
Theorem start_from_allocated (s : bgpstream_t) :
  status s = BGPSTREAM_STATUS_ALLOCATED ->
  exists e s',
    bgpstream_start (Some s) = Done e /\ after e = Some s'
    /\ (bgpstream_filter_mgr_validate (filter_mgr s) <> 0 ->
        retval e = bgpstream_filter_mgr_validate (filter_mgr s)
        /\ retval e <> 0
        /\ s' = s
        /\ status s' = BGPSTREAM_STATUS_ALLOCATED)
    /\ (bgpstream_filter_mgr_validate (filter_mgr s) = 0 ->
        fst (bgpstream_di_mgr_start (filter_mgr s) (di_mgr s)) <> 0 ->
        retval e = -1 /\ status s' = BGPSTREAM_STATUS_ALLOCATED)
    /\ (bgpstream_filter_mgr_validate (filter_mgr s) = 0 ->
        fst (bgpstream_di_mgr_start (filter_mgr s) (di_mgr s)) = 0 ->
        retval e = 0 /\ status s' = BGPSTREAM_STATUS_ON
        /\ di_mgr s'
           = snd (bgpstream_di_mgr_start (filter_mgr s) (di_mgr s))).
Proof.
  intros Hst. unfold bgpstream_start.
  destruct (Z.eqb_spec (bgpstream_filter_mgr_validate (filter_mgr s)) 0)
    as [Hv | Hv]; simpl.
  - destruct (bgpstream_di_mgr_start (filter_mgr s) (di_mgr s))
      as [rc_di dm] eqn:Hdi.
    destruct (Z.eqb_spec rc_di 0) as [Hd | Hd]; simpl;
      eexists; eexists; (split; [reflexivity|]); simpl;
      (split; [reflexivity|]);
      repeat split; intros; try reflexivity; try congruence.
  - exists (Eff (bgpstream_filter_mgr_validate (filter_mgr s)) (Some s) []), s.
    simpl. repeat split; intros; try reflexivity; try congruence.
Qed.

(** C5: with status ON, no open reader and an empty input queue,
    [bgpstream_get_next_record] queries the data interface once.  When
    the query finds nothing the call returns 0, the end of the stream,
    which is not negative; when the query fails the call returns -1.  In
    both cases the caller's record has been cleared and the object holds
    what the query left of the data interface and of the input queue. *)
Theorem refill_end_of_stream_or_error (s : bgpstream_t)
    (record : record_t) (fuel : nat) (n : Z) (dm1 : di_mgr_t)
    (im1 : input_mgr_t) :
  status s = BGPSTREAM_STATUS_ON ->
  bgpstream_reader_mgr_is_empty (reader_mgr s) = true ->
  bgpstream_input_mgr_is_empty (input_mgr s) = true ->
  bgpstream_di_mgr_get_queue (filter_mgr s) (di_mgr s) (input_mgr s)
  = Some (n, dm1, im1) ->
  (n = 0 ->
     bgpstream_get_next_record (S fuel) (Some s) record
     = Done (Eff (0, bgpstream_record_clear record)
         (Some (mk_bgpstream (filter_mgr s) dm1 im1 (reader_mgr s)
                  BGPSTREAM_STATUS_ON)) []))
  /\ (n < 0 ->
     bgpstream_get_next_record (S fuel) (Some s) record
     = Done (Eff (-1, bgpstream_record_clear record)
         (Some (mk_bgpstream (filter_mgr s) dm1 im1 (reader_mgr s)
                  BGPSTREAM_STATUS_ON)) [])).
Proof.
  intros Hst Hrm Him Hq.
  unfold bgpstream_get_next_record. rewrite Hst. simpl.
  rewrite Hrm, Him, Hq.
  split; intros Hn.
  - subst n. reflexivity.
  - destruct (Z.eqb_spec n 0) as [E | _]; [lia|].
    apply Z.ltb_lt in Hn. rewrite Hn. reflexivity.
Qed.

(** C6: with status ALLOCATED, [bgpstream_add_interval_filter] hands the
    interval to the filter manager; when the end time is
    [BGPSTREAM_FOREVER] it first sets the blocking flag of the data
    interface, and for any smaller end time it leaves the data interface
    alone.  Nothing else in the object changes. *)
Theorem add_interval_filter_live_hint (s : bgpstream_t)
    (begin_time end_time : Z) :
  status s = BGPSTREAM_STATUS_ALLOCATED ->
  (end_time = BGPSTREAM_FOREVER ->
     bgpstream_add_interval_filter (Some s) begin_time end_time
     = Done (Eff tt
         (Some (mk_bgpstream
                  (bgpstream_filter_mgr_interval_filter_add (filter_mgr s)
                     begin_time end_time)
                  (bgpstream_di_mgr_set_blocking (di_mgr s))
                  (input_mgr s) (reader_mgr s)
                  BGPSTREAM_STATUS_ALLOCATED)) []))
  /\ (end_time < BGPSTREAM_FOREVER ->
     bgpstream_add_interval_filter (Some s) begin_time end_time
     = Done (Eff tt
         (Some (mk_bgpstream
                  (bgpstream_filter_mgr_interval_filter_add (filter_mgr s)
                     begin_time end_time)
                  (di_mgr s) (input_mgr s) (reader_mgr s)
                  BGPSTREAM_STATUS_ALLOCATED)) [])).
Proof.
  intros Hst.
  unfold bgpstream_add_interval_filter. rewrite Hst. simpl.
  split; intros He.
  - rewrite He, Z.eqb_refl. unfold set_filter_mgr, set_live_mode, set_di_mgr.
    simpl. rewrite Hst. reflexivity.
  - destruct (Z.eqb_spec end_time BGPSTREAM_FOREVER) as [E | _]; [lia|].
    unfold set_filter_mgr. rewrite Hst. reflexivity.
Qed.

(** With status ALLOCATED, [bgpstream_add_recent_interval_filter] does
    what the result of [bgpstream_time_calc_recent_interval] tells it:
    the interval goes to the filter manager, with its end replaced by
    [BGPSTREAM_FOREVER] and the blocking flag set when [islive] is not 0;
    when the helper returns 0 the error is logged and the object stays as
    it was. *)
Lemma add_recent_interval_filter_cases (s : bgpstream_t) (now : Z)
    (interval : string) (islive rc starttime endtime : Z) :
  status s = BGPSTREAM_STATUS_ALLOCATED ->
  bgpstream_time_calc_recent_interval now interval
  = (rc, (starttime, endtime)) ->
  (rc <> 0 -> islive = 0 ->
     bgpstream_add_recent_interval_filter now (Some s) interval islive
     = Done (Eff tt
         (Some (mk_bgpstream
                  (bgpstream_filter_mgr_interval_filter_add (filter_mgr s)
                     starttime endtime)
                  (di_mgr s) (input_mgr s) (reader_mgr s)
                  BGPSTREAM_STATUS_ALLOCATED)) []))
  /\ (rc <> 0 -> islive <> 0 ->
     bgpstream_add_recent_interval_filter now (Some s) interval islive
     = Done (Eff tt
         (Some (mk_bgpstream
                  (bgpstream_filter_mgr_interval_filter_add (filter_mgr s)
                     starttime BGPSTREAM_FOREVER)
                  (bgpstream_di_mgr_set_blocking (di_mgr s))
                  (input_mgr s) (reader_mgr s)
                  BGPSTREAM_STATUS_ALLOCATED)) []))
  /\ (rc = 0 ->
     bgpstream_add_recent_interval_filter now (Some s) interval islive
     = Done (Eff tt (Some s)
         [EvLogErr "Failed to determine suitable time interval"])).
Proof.
  intros Hst Hcalc.
  unfold bgpstream_add_recent_interval_filter.
  rewrite Hst, Hcalc. simpl.
  repeat split.
  - intros Hrc Hlive. subst islive.
    destruct (Z.eqb_spec rc 0) as [E | _]; [contradiction|].
    simpl. unfold set_filter_mgr. rewrite Hst. reflexivity.
  - intros Hrc Hlive.
    destruct (Z.eqb_spec rc 0) as [E | _]; [contradiction|].
    destruct (Z.eqb_spec islive 0) as [E | _]; [contradiction|].
    unfold set_filter_mgr, set_live_mode, set_di_mgr. simpl.
    rewrite Hst. reflexivity.
  - intros Hrc. subst rc. reflexivity.
Qed.

(** C8 (as amended): [bgpstream_destroy] on an object stores status OFF
    first only when the status was ON, and otherwise leaves the status
    alone; it then destroys the input manager, the reader manager, the
    filter manager and the data interface manager, in this order, and
    frees the object.  [bgpstream_create], when every allocation
    succeeds, builds them in the order filter manager, data interface
    manager, input manager, reader manager. *)
Theorem destroy_order (s : bgpstream_t) :
  (exists e,
     bgpstream_destroy (Some s) = Done e
     /\ after e = None
     /\ events e
        = (if status_eqb (status s) BGPSTREAM_STATUS_ON
           then [EvStatus BGPSTREAM_STATUS_OFF] else [])
          ++ [EvDestroy INPUT_MGR; EvDestroy READER_MGR;
              EvDestroy FILTER_MGR; EvDestroy DI_MGR; EvFree]
     /\ destroyed (events e)
        = [INPUT_MGR; READER_MGR; FILTER_MGR; DI_MGR])
  /\ (forall bs evs,
        bgpstream_create true = (Some bs, evs) ->
        created evs = [FILTER_MGR; DI_MGR; INPUT_MGR; READER_MGR]
        /\ status bs = BGPSTREAM_STATUS_ALLOCATED).
Proof.
  split.
  - unfold bgpstream_destroy, bgpstream_stop.
    destruct (status_eqb (status s) BGPSTREAM_STATUS_ON); simpl;
      eexists; repeat split; reflexivity.
  - intros bs evs. unfold bgpstream_create. simpl.
    destruct bgpstream_filter_mgr_create as [fm|]; [|discriminate].
    destruct (bgpstream_di_mgr_create fm) as [dm|]; [|discriminate].
    destruct bgpstream_input_mgr_create as [im|]; [|discriminate].
    destruct (bgpstream_reader_mgr_create fm) as [rm|]; [|discriminate].
    intros H. inversion H; subst. split; reflexivity.
Qed.

(** C10 (as amended): called with a NULL handle, the four filter calls
    and [bgpstream_destroy] return without any action and
    [bgpstream_get_next_record] returns -1 with the caller's record as it
    was, whatever the loop bound; none of them dereferences the
    handle. *)
Theorem null_handle_guarded (record : record_t) :
  (forall ft v, bgpstream_add_filter None ft v = Done (Eff tt None []))
  /\ (forall period,
       bgpstream_add_rib_period_filter None period = Done (Eff tt None []))
  /\ (forall now interval islive,
       bgpstream_add_recent_interval_filter now None interval islive
       = Done (Eff tt None []))
  /\ (forall begin_time end_time,
       bgpstream_add_interval_filter None begin_time end_time
       = Done (Eff tt None []))
  /\ bgpstream_destroy None = Done (Eff tt None [])
  /\ (forall fuel,
       bgpstream_get_next_record fuel None record
       = Done (Eff (-1, record) None [])).
Proof. repeat split. Qed.

End CoordinatorFacts.

(** * Properties of the modelled managers *)

Module SpecFacts.

Import SpecModel.
Local Open Scope Z_scope.

(** ** Waiting times of a live stream *)

Lemma next_backoff_bounds (b : Z) :
  0 <= b <= DATASOURCE_BLOCKING_MAX_WAIT ->
  b <= next_backoff b <= DATASOURCE_BLOCKING_MAX_WAIT.
Proof. unfold next_backoff, DATASOURCE_BLOCKING_MAX_WAIT. lia. Qed.

Lemma waits_bounds (k : nat) : forall b lo,
  lo <= b -> 0 <= b <= DATASOURCE_BLOCKING_MAX_WAIT ->
  Forall (fun t => lo <= t <= DATASOURCE_BLOCKING_MAX_WAIT) (waits k b).
Proof.
  induction k as [|k IH]; intros b lo Hlo Hb; simpl; constructor.
  - lia.
  - pose proof (next_backoff_bounds b Hb). apply IH; lia.
Qed.

Lemma waits_sorted (k : nat) : forall b,
  0 <= b <= DATASOURCE_BLOCKING_MAX_WAIT ->
  StronglySorted Z.le (waits k b).
Proof.
  induction k as [|k IH]; intros b Hb; simpl; constructor.
  - apply IH. pose proof (next_backoff_bounds b Hb). lia.
  - pose proof (next_backoff_bounds b Hb) as Hn.
    eapply Forall_impl; [|apply (waits_bounds k (next_backoff b) b); lia].
    simpl. intros t Ht. lia.
Qed.

Lemma next_backoff_pow (b : Z) (i : Z) :
  0 < b -> 0 <= i ->
  Z.min (next_backoff b * 2 ^ i) DATASOURCE_BLOCKING_MAX_WAIT
  = Z.min (b * 2 ^ (Z.succ i)) DATASOURCE_BLOCKING_MAX_WAIT.
Proof.
  intros Hb Hi. rewrite Z.pow_succ_r by assumption.
  assert (Hp : 2 ^ 0 <= 2 ^ i) by (apply Z.pow_le_mono_r; lia).
  rewrite Z.pow_0_r in Hp.
  unfold next_backoff, DATASOURCE_BLOCKING_MAX_WAIT.
  destruct (Z.le_gt_cases (2 * b) 3600) as [Hle | Hgt].
  - rewrite (Z.min_l (2 * b) 3600) by assumption. f_equal. ring.
  - rewrite (Z.min_r (2 * b) 3600) by lia.
    rewrite !Z.min_r; nia.
Qed.

Lemma waits_nth (k : nat) : forall b i,
  (i < k)%nat -> 0 < b ->
  b <= DATASOURCE_BLOCKING_MAX_WAIT ->
  nth i (waits k b) 0
  = Z.min (b * 2 ^ Z.of_nat i) DATASOURCE_BLOCKING_MAX_WAIT.
Proof.
  induction k as [|k IH]; intros b i Hi Hb Hmax; [lia|].
  destruct i as [|i]; simpl waits; simpl nth.
  - simpl. rewrite Z.mul_1_r. lia.
  - assert (Hn : b <= next_backoff b <= DATASOURCE_BLOCKING_MAX_WAIT)
      by (apply next_backoff_bounds; lia).
    rewrite IH by lia.
    rewrite Nat2Z.inj_succ. apply next_backoff_pow; lia.
Qed.

(** A live stream sleeps through the empty answers and returns at the
    first answer that holds descriptors. *)
Lemma query_backend_live (k : nat) : forall b sleeps d ds rest,
  query_backend (repeat (Descriptors []) k ++ Descriptors (d :: ds) :: rest)
    true b sleeps
  = Some (Z.of_nat (List.length (d :: ds)), d :: ds,
          (rest, DATASOURCE_BLOCKING_MIN_WAIT, sleeps ++ waits k b)).
Proof.
  induction k as [|k IH]; intros b sleeps d ds rest.
  - simpl. rewrite app_nil_r. reflexivity.
  - simpl repeat. simpl app. simpl query_backend.
    rewrite IH. simpl waits. rewrite <- app_assoc. reflexivity.
Qed.

(** C9: a live data interface manager whose backend answers [k] times
    without descriptors and then with some sleeps [k] times before its
    query returns.  The sleeps start with the current waiting time, each
    one is the double of the one before, capped at one hour, so they
    never decrease and never exceed the cap; from the first waiting time
    of 30 seconds the [i]-th sleep lasts min (30 * 2^i, 3600) seconds.
    The answer with descriptors puts the waiting time back to 30
    seconds. *)
Theorem backoff_schedule (dm : bgpstream_datasource_mgr_t)
    (im : list input_descriptor) (k : nat) (d : input_descriptor)
    (ds : list input_descriptor) (rest : list response) :
  blocking dm <> 0 ->
  0 < backoff_time dm <= DATASOURCE_BLOCKING_MAX_WAIT ->
  backend dm = repeat (Descriptors []) k ++ Descriptors (d :: ds) :: rest ->
  (exists dm' im',
     datasource_mgr_get_queue dm im
     = Some (Z.of_nat (List.length (d :: ds)), dm', im')
     /\ slept dm' = slept dm ++ waits k (backoff_time dm)
     /\ backoff_time dm' = 30
     /\ backend dm' = rest)
  /\ StronglySorted Z.le (waits k (backoff_time dm))
  /\ Forall (fun t => backoff_time dm <= t <= 3600)
       (waits k (backoff_time dm))
  /\ (forall i, (S i < k)%nat ->
        nth (S i) (waits k (backoff_time dm)) 0
        = Z.min (2 * nth i (waits k (backoff_time dm)) 0) 3600)
  /\ (backoff_time dm = 30 ->
      forall i, (i < k)%nat ->
        nth i (waits k (backoff_time dm)) 0
        = Z.min (30 * 2 ^ Z.of_nat i) 3600).
Proof.
  intros Hlive Hb Hbackend.
  split; [|split; [|split; [|split]]].
  - unfold datasource_mgr_get_queue. rewrite Hbackend.
    destruct (Z.eqb_spec (blocking dm) 0) as [E | _]; [contradiction|].
    simpl negb. rewrite query_backend_live.
    eexists; eexists. split; [reflexivity|]. simpl. repeat split.
  - apply waits_sorted. lia.
  - apply (waits_bounds k (backoff_time dm) (backoff_time dm)); lia.
  - intros i Hi.
    rewrite !waits_nth by lia.
    rewrite Nat2Z.inj_succ, Z.pow_succ_r by lia.
    unfold DATASOURCE_BLOCKING_MAX_WAIT. lia.
  - intros H30 i Hi. rewrite waits_nth by lia. rewrite H30. reflexivity.
Qed.

(** ** Time order of the merge *)

Lemma nondecreasing_from_weaken (ts : list Z) (lo lo' : Z) :
  lo' <= lo -> nondecreasing_from lo ts = true ->
  nondecreasing_from lo' ts = true.
Proof.
  destruct ts as [|t ts]; simpl; [reflexivity|].
  intros Hle H. apply andb_true_iff in H. destruct H as [H1 H2].
  apply andb_true_iff. split; [|assumption].
  apply Z.leb_le in H1. apply Z.leb_le. lia.
Qed.

Lemma nondecreasing_from_cons (lo t : Z) (ts : list Z) :
  nondecreasing_from lo (t :: ts) = true <->
  lo <= t /\ nondecreasing_from t ts = true.
Proof.
  simpl. rewrite andb_true_iff, Z.leb_le. reflexivity.
Qed.

Lemma times_in_order_weaken (lo lo' hi hi' : Z) (ts : list Z) :
  lo' <= lo -> hi <= hi' ->
  times_in_order lo hi ts -> times_in_order lo' hi' ts.
Proof.
  intros Hlo Hhi [Hnd Hub]. split.
  - now apply nondecreasing_from_weaken with lo.
  - eapply Forall_impl; [|exact Hub]. simpl. intros; lia.
Qed.

Lemma high_time_spec (ts : list Z) : forall hi,
  hi <= high_time hi ts /\ Forall (fun t => t <= high_time hi ts) ts.
Proof.
  unfold high_time.
  induction ts as [|t ts IH]; intros hi; simpl.
  - split; [lia | constructor].
  - destruct (IH (Z.max hi t)) as [H1 H2]. split; [lia|].
    constructor; [lia | exact H2].
Qed.

Lemma batch_high_spec (ds : list input_descriptor) : forall hi,
  hi <= batch_high hi ds
  /\ Forall (fun d => Forall (fun t => t <= batch_high hi ds)
                        (file_times d)) ds.
Proof.
  unfold batch_high.
  induction ds as [|d ds IH]; intros hi; simpl.
  - split; [lia | constructor].
  - destruct (IH (high_time hi (file_times d))) as [H1 H2].
    destruct (high_time_spec (file_times d) hi) as [H3 H4].
    split; [lia|]. constructor; [|exact H2].
    eapply Forall_impl; [|exact H4]. simpl. intros; lia.
Qed.

Lemma batch_in_order (ds : list input_descriptor) (hi : Z) :
  forallb (fun d => nondecreasing_from hi (file_times d)) ds = true ->
  Forall (fun d => times_in_order hi (batch_high hi ds) (file_times d)) ds.
Proof.
  intros H. rewrite forallb_forall in H.
  destruct (batch_high_spec ds hi) as [_ Hub].
  rewrite Forall_forall in *. intros d Hd. split; auto.
Qed.

Lemma reader_leb_true (a b : reader) :
  reader_leb a b = true -> reader_time a <= reader_time b.
Proof.
  unfold reader_leb, reader_time. intros H.
  apply orb_true_iff in H. destruct H as [H | H].
  - apply Z.ltb_lt in H. lia.
  - apply andb_true_iff in H. destruct H as [H _].
    apply Z.eqb_eq in H. lia.
Qed.

Lemma reader_leb_false (a b : reader) :
  reader_leb a b = false -> reader_time b <= reader_time a.
Proof.
  unfold reader_leb, reader_time. intros H.
  apply orb_false_iff in H. destruct H as [H _].
  apply Z.ltb_ge in H. exact H.
Qed.

Lemma reader_insert_Forall (P : reader -> Prop) (r : reader)
    (l : list reader) :
  P r -> Forall P l -> Forall P (reader_insert r l).
Proof.
  intros Hr. induction l as [|x l IH]; intros Hl; simpl.
  - constructor; [assumption | constructor].
  - inversion Hl; subst.
    destruct (reader_leb r x); constructor; auto.
Qed.

Lemma reader_insert_sorted (r : reader) (l : list reader) :
  StronglySorted (fun a b => reader_time a <= reader_time b) l ->
  StronglySorted (fun a b => reader_time a <= reader_time b)
    (reader_insert r l).
Proof.
  induction l as [|x l IH]; intros Hs; simpl.
  - constructor; constructor.
  - inversion Hs as [|? ? Hs' Hx]; subst.
    destruct (reader_leb r x) eqn:E.
    + apply reader_leb_true in E.
      constructor; [assumption|].
      constructor; [assumption|].
      eapply Forall_impl; [|exact Hx]. simpl. intros; lia.
    + apply reader_leb_false in E.
      constructor; [apply IH; assumption|].
      apply reader_insert_Forall; assumption.
Qed.

Lemma readers_in_order_insert (lo hi : Z) (r : reader) (l : list reader) :
  times_in_order lo hi (reader_times r) ->
  readers_in_order lo hi l ->
  readers_in_order lo hi (reader_insert r l).
Proof.
  intros Hr [Hs Hall]. split.
  - now apply reader_insert_sorted.
  - now apply reader_insert_Forall.
Qed.

Lemma input_queue_insert_Forall (P : input_descriptor -> Prop)
    (d : input_descriptor) (q : list input_descriptor) :
  P d -> Forall P q -> Forall P (input_queue_insert d q).
Proof.
  intros Hd. induction q as [|x q IH]; intros Hq; simpl.
  - constructor; [assumption | constructor].
  - inversion Hq; subst.
    destruct (input_before d x); constructor; auto.
Qed.

Lemma input_queue_push_all_Forall (P : input_descriptor -> Prop)
    (ds : list input_descriptor) : forall q,
  Forall P ds -> Forall P q -> Forall P (input_queue_push_all ds q).
Proof.
  unfold input_queue_push_all.
  induction ds as [|d ds IH]; intros q Hds Hq; simpl; [assumption|].
  inversion Hds; subst.
  apply IH; [assumption|]. now apply input_queue_insert_Forall.
Qed.

Lemma input_queue_insert_length (d : input_descriptor)
    (q : list input_descriptor) :
  List.length (input_queue_insert d q) = S (List.length q).
Proof.
  induction q as [|x q IH]; simpl; [reflexivity|].
  destruct (input_before d x); simpl; congruence.
Qed.

Lemma input_queue_push_all_length (ds : list input_descriptor) : forall q,
  List.length (input_queue_push_all ds q)
  = (List.length ds + List.length q)%nat.
Proof.
  unfold input_queue_push_all.
  induction ds as [|d ds IH]; intros q; simpl; [reflexivity|].
  rewrite IH, input_queue_insert_length. lia.
Qed.

(** What a query of the backend leaves behind when the files to come
    are in time order. *)
Lemma query_backend_in_order (answers : list response) :
  forall live b sleeps hi n ds rest b' sleeps',
  catalog_in_time_order hi answers = true ->
  query_backend answers live b sleeps = Some (n, ds, (rest, b', sleeps')) ->
  forallb (fun d => nondecreasing_from hi (file_times d)) ds = true
  /\ catalog_in_time_order (batch_high hi ds) rest = true
  /\ (0 < n -> ds <> [] /\ (List.length rest < List.length answers)%nat)
  /\ (n <= 0 -> ds = [])
  /\ (List.length rest <= List.length answers)%nat.
Proof.
  induction answers as [|a answers IH];
    intros live b sleeps hi n ds rest b' sleeps' Hcat Hq.
  - simpl in Hq. destruct live; [discriminate|].
    inversion Hq; subst. simpl. repeat split; try lia; try reflexivity.
  - destruct a as [[|d0 ds0]|].
    + simpl in Hcat. simpl in Hq. destruct live.
      * destruct (IH _ _ _ _ _ _ _ _ _ Hcat Hq) as (H1 & H2 & H3 & H4 & H5).
        split; [exact H1|]. split; [exact H2|].
        split; [|split; [exact H4 | simpl; lia]].
        intros Hn. destruct (H3 Hn) as [Hne Hlen].
        split; [exact Hne | simpl; lia].
      * inversion Hq; subst. simpl.
        repeat split; try lia; try assumption; reflexivity.
    + simpl in Hq. inversion Hq; subst.
      change (catalog_in_time_order hi (Descriptors (d0 :: ds0) :: rest))
        with (forallb (fun d => nondecreasing_from hi (file_times d))
                (d0 :: ds0)
              && catalog_in_time_order (batch_high hi (d0 :: ds0)) rest)
        in Hcat.
      apply andb_true_iff in Hcat. destruct Hcat as [Hb Hc].
      repeat split; try assumption; simpl; try lia; try discriminate.
    + simpl in Hq. inversion Hq; subst. simpl in Hcat. simpl.
      repeat split; try lia; try assumption; reflexivity.
Qed.

Section Merge.

Variable w : setting.

Lemma next_admitted_in_order (fs : filter_set) (d : input_descriptor)
    (es : list mrt_entry) : forall lo hi h todo,
  times_in_order lo hi (map mrt_time es) ->
  next_admitted w fs d es = Some (h, todo) ->
  times_in_order lo hi (rec_time h :: map mrt_time todo).
Proof.
  induction es as [|e es IH]; intros lo hi h todo Hin Hnext; simpl in *.
  - discriminate.
  - destruct (fine_match w fs (make_record d e)).
    + inversion Hnext; subst. exact Hin.
    + destruct Hin as [Hnd Hub].
      apply nondecreasing_from_cons in Hnd. destruct Hnd as [Hlo Hnd].
      inversion Hub; subst.
      apply (IH lo hi h todo); [|assumption].
      split; [|assumption].
      now apply nondecreasing_from_weaken with (mrt_time e).
Qed.

Lemma reader_open_in_order (fs : filter_set) (d : input_descriptor)
    (seq : nat) (lo hi : Z) (r : reader) :
  times_in_order lo hi (file_times d) ->
  reader_open w fs d seq = Some r ->
  times_in_order lo hi (reader_times r).
Proof.
  unfold reader_open, file_times. intros Hd Hopen.
  destruct (coarse_match w fs d); [|discriminate].
  destruct (in_dump d) as [es|]; [|discriminate].
  destruct (next_admitted w fs d es) as [[h todo]|] eqn:E; [|discriminate].
  inversion Hopen; subst. unfold reader_times, reader_time. simpl.
  now apply (next_admitted_in_order fs d es).
Qed.

Lemma reader_set_add_in_order (fs : filter_set) (lo hi : Z)
    (q : list input_descriptor) : forall rs,
  Forall (fun d => times_in_order lo hi (file_times d)) q ->
  readers_in_order lo hi (readers rs) ->
  readers_in_order lo hi (readers (reader_set_add w rs q fs)).
Proof.
  unfold reader_set_add.
  induction q as [|d q IH]; intros rs Hq Hrs; simpl; [assumption|].
  inversion Hq; subst. apply IH; [assumption|].
  unfold reader_set_add_one.
  destruct (reader_open w fs d (next_seq rs)) as [r|] eqn:E; simpl.
  - apply readers_in_order_insert; [|assumption].
    now apply (reader_open_in_order fs d (next_seq rs)).
  - assumption.
Qed.

(** The emission step: the record that leaves is not older than [lo],
    and nothing that stays is older than the record. *)
Lemma emission_in_order (fs : filter_set) (lo hi : Z) (rs : reader_set)
    (record : bgpstream_record_t) (r : reader) (others : list reader) :
  readers rs = r :: others ->
  readers_in_order lo hi (readers rs) ->
  exists rs',
    reader_set_get_next_record w rs record fs
    = (1, rs', mk_bgpstream_record (rec_bs record) (Some (rd_head r)))
    /\ lo <= reader_time r <= hi
    /\ readers_in_order (reader_time r) hi (readers rs').
Proof.
  intros Hrs [Hs Hall]. unfold reader_set_get_next_record.
  rewrite Hrs in *. eexists. split; [reflexivity|].
  inversion Hs as [|? ? Hs' Hmin]; subst.
  inversion Hall as [|? ? [Hnd Hub] Hall']; subst.
  unfold reader_times in Hnd, Hub.
  apply nondecreasing_from_cons in Hnd. destruct Hnd as [Hlo Hnd].
  inversion Hub as [|? ? Hhi Hub']; subst.
  split; [lia|]. simpl.
  assert (Hothers : readers_in_order (reader_time r) hi others).
  { split; [assumption|].
    rewrite Forall_forall in *. intros x Hx.
    destruct (Hall' x Hx) as [Hxnd Hxub]. split; [|assumption].
    unfold reader_times in *.
    apply nondecreasing_from_cons in Hxnd. destruct Hxnd as [_ Hxnd].
    apply nondecreasing_from_cons. split; [|assumption].
    apply Hmin. assumption. }
  destruct (next_admitted w fs (rd_input r) (rd_todo r))
    as [[h todo]|] eqn:E; [|assumption].
  apply readers_in_order_insert; [|assumption].
  unfold reader_times, reader_time. simpl.
  apply (next_admitted_in_order fs (rd_input r) (rd_todo r));
    [|assumption].
  split; assumption.
Qed.

Lemma fill_input_queue_nonempty (fuel : nat) (fs : filter_set)
    (dm : bgpstream_datasource_mgr_t) (d : input_descriptor)
    (q : list input_descriptor) :
  fill_input_queue (M := spec_managers w) fuel fs dm (d :: q)
  = Done (Fallthrough, dm, d :: q).
Proof. destruct fuel; reflexivity. Qed.

Lemma fill_input_queue_query (fuel : nat) (fs : filter_set)
    (dm : bgpstream_datasource_mgr_t) :
  fill_input_queue (M := spec_managers w) (S fuel) fs dm []
  = match datasource_mgr_get_queue dm [] with
    | None => Blocked
    | Some (n, dm1, im1) =>
        if n =? 0 then Done (Return 0, dm1, im1)
        else if n <? 0 then Done (Return (-1), dm1, im1)
        else fill_input_queue (M := spec_managers w) fuel fs dm1 im1
    end.
Proof. reflexivity. Qed.

(** The refill loop of a drained stream returns or blocks, and keeps
    the stream in time order. *)
Lemma fill_reader_set_in_order (fuel : nat) (fs : filter_set) :
  forall (dm : bgpstream_datasource_mgr_t) (rs : reader_set) (lo hi : Z),
  (List.length (backend dm) < fuel)%nat ->
  lo <= hi ->
  readers_in_order lo hi (readers rs) ->
  catalog_in_time_order hi (backend dm) = true ->
  match fill_reader_set (M := spec_managers w) fuel fs dm [] rs with
  | Done (ex, dm', im', rs') =>
      im' = []
      /\ (exists hi',
            lo <= hi' /\ readers_in_order lo hi' (readers rs')
            /\ catalog_in_time_order hi' (backend dm') = true)
      /\ match ex with
         | Fallthrough => readers rs' <> []
         | Return rc => rc <= 0
         end
  | Blocked => True
  | NullDeref => False
  | OutOfFuel => False
  end.
Proof.
  induction fuel as [|fuel IH]; intros dm rs lo hi Hfuel Hlo Hrs Hcat;
    [lia|].
  destruct (readers rs) as [|r others] eqn:Ers.
  - (* no reader is open: the data interface is queried *)
    cbn [fill_reader_set]. cbn [bgpstream_reader_mgr_is_empty spec_managers].
    rewrite Ers. rewrite fill_input_queue_query.
    unfold datasource_mgr_get_queue.
    destruct (query_backend (backend dm) (negb (blocking dm =? 0))
                (backoff_time dm) (slept dm))
      as [[[n ds] [[rest b'] sleeps']]|] eqn:Eq; [|exact I].
    destruct (query_backend_in_order _ _ _ _ _ _ _ _ _ _ Hcat Eq)
      as (Hds & Hrest & Hpos & Hneg & Hlen).
    destruct (Z.eqb_spec n 0) as [En | En].
    { cbn [bind]. rewrite (Hneg ltac:(lia)) in *.
      split; [reflexivity|]. split; [|lia].
      exists hi. rewrite Ers. simpl. auto. }
    destruct (Z.ltb_spec n 0) as [Eneg | Epos].
    { cbn [bind]. rewrite (Hneg ltac:(lia)) in *.
      split; [reflexivity|]. split; [|lia].
      exists hi. rewrite Ers. simpl. auto. }
    destruct (Hpos ltac:(lia)) as [Hne Hshort].
    destruct (input_queue_push_all ds []) as [|d q] eqn:Epush.
    { apply (f_equal (@List.length _)) in Epush.
      rewrite input_queue_push_all_length in Epush.
      destruct ds; [contradiction | simpl in Epush; lia]. }
    rewrite fill_input_queue_nonempty. cbn [bind].
    cbn [bgpstream_input_mgr_get_queue_to_process spec_managers].
    cbn [bgpstream_reader_mgr_add spec_managers].
    assert (Hq : Forall (fun d => times_in_order lo (batch_high hi ds)
                                    (file_times d)) (d :: q)).
    { rewrite <- Epush. apply input_queue_push_all_Forall; [|constructor].
      eapply Forall_impl; [|apply batch_in_order; exact Hds].
      simpl. intros x Hx.
      apply times_in_order_weaken with hi (batch_high hi ds);
        [lia | lia | exact Hx]. }
    pose proof (batch_high_spec ds hi) as [Hhi _].
    apply (IH _ _ lo (batch_high hi ds));
      [simpl; lia | lia | | exact Hrest].
    apply reader_set_add_in_order; [exact Hq|].
    rewrite Ers. split; constructor.
  - (* a reader is open: the loop is not entered *)
    cbn [fill_reader_set]. cbn [bgpstream_reader_mgr_is_empty spec_managers].
    rewrite Ers.
    split; [reflexivity|]. split; [|congruence].
    exists hi. rewrite Ers. auto.
Qed.

(** One call of [bgpstream_get_next_record] on a stream in time
    order returns or blocks; a record it delivers is not older than
    [lo], and the stream stays in time order from that record on. *)
Lemma next_record_in_order (lo : Z) (s : @bgpstream_t (spec_managers w))
    (record : bgpstream_record_t) :
  stream_in_order w lo s ->
  match bgpstream_get_next_record (M := spec_managers w)
          (enough_fuel w s) (Some s) record with
  | Done e =>
      exists s',
        after e = Some s'
        /\ (0 < fst (retval e) ->
            exists r,
              rec_data (snd (retval e)) = Some r
              /\ lo <= rec_time r
              /\ stream_in_order w (rec_time r) s')
        /\ (fst (retval e) <= 0 -> stream_in_order w lo s')
  | Blocked => True
  | NullDeref => False
  | OutOfFuel => False
  end.
Proof.
  intros (Hst & Him & hi & Hlo & Hrs & Hcat).
  unfold bgpstream_get_next_record. rewrite Hst. cbn [status_eqb negb].
  rewrite Him.
  pose proof (fill_reader_set_in_order (enough_fuel w s) (filter_mgr s)
                (di_mgr s) (reader_mgr s) lo hi) as Hfill.
  unfold enough_fuel in *.
  specialize (Hfill ltac:(lia) Hlo Hrs Hcat).
  destruct (fill_reader_set (Datatypes.S (List.length (backend (di_mgr s))))
              (filter_mgr s) (di_mgr s) [] (reader_mgr s))
    as [[[[ex dm'] im'] rs'] | | |]; try contradiction; [|exact I].
  destruct Hfill as (Him' & (hi' & Hlo' & Hrs' & Hcat') & Hex).
  cbn [bind]. destruct ex as [rc|].
  - (* the refill loop returned: end of stream or failure *)
    eexists. split; [reflexivity|]. cbn [retval fst snd].
    split; [intros; lia|]. intros _.
    split; [reflexivity|]. split; [exact Him'|].
    exists hi'. auto.
  - (* a reader is open *)
    destruct (readers rs') as [|r others] eqn:Ers; [contradiction|].
    cbn [bgpstream_reader_mgr_get_next_record spec_managers
         bgpstream_record_set_bs bgpstream_record_clear].
    rewrite <- Ers in Hrs'.
    destruct (emission_in_order (filter_mgr s) lo hi' rs'
                (mk_bgpstream_record true
                   (rec_data (mk_bgpstream_record (rec_bs record) None)))
                r others Ers Hrs')
      as (rs'' & Hstep & Hr & Hrs'').
    rewrite Hstep.
    eexists. split; [reflexivity|]. cbn [retval fst snd].
    split; [|intros; lia]. intros _.
    exists (rd_head r). split; [reflexivity|].
    split; [exact (proj1 Hr)|].
    split; [reflexivity|]. split; [exact Him'|].
    exists hi'. split; [exact (proj2 Hr)|]. split; assumption.
Qed.

Lemma delivered_in_order (calls : nat) :
  forall (lo : Z) (s : @bgpstream_t (spec_managers w))
         (record : bgpstream_record_t),
  stream_in_order w lo s ->
  exists ts,
    delivered w calls s record = Some ts
    /\ Forall (fun t => lo <= t) ts
    /\ StronglySorted Z.le ts.
Proof.
  induction calls as [|calls IH]; intros lo s record Hs.
  - exists []. repeat split; constructor.
  - pose proof (next_record_in_order lo s record Hs) as Hstep.
    cbn [delivered].
    destruct (bgpstream_get_next_record (M := spec_managers w)
                (enough_fuel w s) (Some s) record)
      as [e | | |]; try contradiction.
    + destruct Hstep as (s' & Hafter & Hpos & Hneg).
      rewrite Hafter.
      destruct (retval e) as [rc record'] eqn:Eret.
      cbn [fst snd] in *.
      destruct (Z.ltb_spec 0 rc) as [Hrc | Hrc].
      * destruct (Hpos Hrc) as (r & Hdata & Hr & Hs').
        destruct (IH (rec_time r) s' record' Hs') as (ts & Hts & Hge & Hsort).
        rewrite Hts, Hdata. exists (rec_time r :: ts).
        split; [reflexivity|]. split.
        -- constructor; [assumption|].
           eapply Forall_impl; [|exact Hge]. simpl. intros; lia.
        -- constructor; assumption.
      * destruct (IH lo s' record' (Hneg Hrc)) as (ts & Hts & Hge & Hsort).
        rewrite Hts. exists ts. auto.
    + exists []. repeat split; constructor.
Qed.

(** C1 (as amended): take a stream that is on and has nothing open or
    queued, and a backend whose every answer lists files whose messages
    are in time order and not older than any message of the files of
    an earlier answer.  Then, whatever the filters admit, every call of
    [bgpstream_get_next_record] returns or blocks, and the timestamps
    of the records delivered by any number of successive calls never
    decrease, within a file and from one file to the next. *)
Theorem monotonic_emission (s : @bgpstream_t (spec_managers w))
    (record : bgpstream_record_t) (calls : nat) (lo : Z) :
  status s = BGPSTREAM_STATUS_ON ->
  input_mgr s = [] ->
  readers (reader_mgr s) = [] ->
  catalog_in_time_order lo (backend (di_mgr s)) = true ->
  exists ts,
    delivered w calls s record = Some ts
    /\ StronglySorted Z.le ts
    /\ Forall (fun t => lo <= t) ts.
Proof.
  intros Hst Him Hrs Hcat.
  destruct (delivered_in_order calls lo s record) as (ts & Hts & Hge & Hsort).
  - split; [exact Hst|]. split; [exact Him|].
    exists lo. split; [lia|]. split; [|exact Hcat].
    rewrite Hrs. split; constructor.
  - exists ts. auto.
Qed.

End Merge.

End SpecFacts.

(** * The statements on concrete streams *)

Module Examples.

Import SpecModel Fixture.
Local Open Scope string_scope.
Local Open Scope Z_scope.

(** C1, on a catalog in time order: the seven records come out in time
    order. *)
Lemma monotonic_emission_witness :
  status ordered_stream = BGPSTREAM_STATUS_ON
  /\ input_mgr ordered_stream = []
  /\ readers (reader_mgr ordered_stream) = []
  /\ catalog_in_time_order 0 (backend (di_mgr ordered_stream)) = true
  /\ delivered open_setting 9 ordered_stream blank_record
     = Some [10; 10; 11; 12; 15; 30; 31]
  /\ exists ts,
       delivered open_setting 9 ordered_stream blank_record = Some ts
       /\ StronglySorted Z.le ts
       /\ Forall (fun t => 0 <= t) ts.
Proof.
  split; [reflexivity|]. split; [reflexivity|]. split; [reflexivity|].
  split; [reflexivity|]. split; [reflexivity|].
  apply (SpecFacts.monotonic_emission open_setting ordered_stream
           blank_record 9 0); reflexivity.
Defined.

(** C1 as stated fails: a single file whose second message is older than
    its first is delivered in file order, and a file that the data
    interface lists only after a younger file has been read to its end is
    delivered after that file. *)
Lemma monotonic_emission_fails :
  delivered open_setting 2 unordered_stream blank_record = Some [25; 23]
  /\ ~ (exists ts,
         delivered open_setting 2 unordered_stream blank_record = Some ts
         /\ StronglySorted Z.le ts)
  /\ delivered open_setting 5 late_listing_stream blank_record
     = Some [30; 31; 10; 10; 12]
  /\ ~ (exists ts,
         delivered open_setting 5 late_listing_stream blank_record = Some ts
         /\ StronglySorted Z.le ts).
Proof.
  split; [reflexivity|]. split; [|split; [reflexivity|]].
  - intros (ts & Hts & Hsort).
    assert (E : ts = [25; 23]) by (vm_compute in Hts; congruence).
    subst ts. inversion Hsort as [|? ? _ Hall]; subst.
    inversion Hall; subst. lia.
  - intros (ts & Hts & Hsort).
    assert (E : ts = [30; 31; 10; 10; 12])
      by (vm_compute in Hts; congruence).
    subst ts. inversion Hsort as [|? ? _ Hall]; subst.
    inversion Hall as [|? ? _ Hall']; subst.
    inversion Hall'; subst. lia.
Qed.

(** C2, on a stream that has been turned off. *)
Lemma lifecycle_gating_witness :
  status stopped_stream <> BGPSTREAM_STATUS_ALLOCATED
  /\ status stopped_stream <> BGPSTREAM_STATUS_ON
  /\ bgpstream_add_interval_filter (Some stopped_stream) 0 BGPSTREAM_FOREVER
     = Done (Eff tt (Some stopped_stream) [])
  /\ bgpstream_add_filter (Some stopped_stream) FILTER_COLLECTOR "rrc00"
     = Done (Eff tt (Some stopped_stream) [])
  /\ bgpstream_get_next_record 3 (Some stopped_stream) blank_record
     = Done (Eff (-1, blank_record) (Some stopped_stream) []).
Proof.
  assert (Ha : status stopped_stream <> BGPSTREAM_STATUS_ALLOCATED)
    by discriminate.
  assert (Hb : status stopped_stream <> BGPSTREAM_STATUS_ON)
    by discriminate.
  destruct (lifecycle_gating (M := spec_managers open_setting)
              stopped_stream blank_record) as [Hfilters Hnext].
  destruct (Hfilters Ha) as (Hadd & _ & _ & Hinterval).
  split; [exact Ha|]. split; [exact Hb|].
  split; [apply Hinterval|]. split; [apply Hadd|]. apply Hnext, Hb.
Defined.

(** C2 as stated fails: a filter call on a started stream returns
    without reporting any error. *)
Lemma rejected_filter_call_is_silent :
  status started_stream <> BGPSTREAM_STATUS_ALLOCATED
  /\ ~ reports_error
         (bgpstream_add_rib_period_filter (Some started_stream) 3600).
Proof.
  split; [discriminate|].
  intros (e & He & Hlog). vm_compute in He.
  inversion He; subst. discriminate.
Qed.

(** C3 as stated fails: on a started stream the backend and its options
    are still replaced. *)
Lemma data_interface_changes_after_start :
  status started_stream <> BGPSTREAM_STATUS_ALLOCATED
  /\ (exists e s',
        bgpstream_set_data_interface (Some started_stream)
          BGPSTREAM_DATA_INTERFACE_CSVFILE = Done e
        /\ after e = Some s'
        /\ datasource (di_mgr started_stream)
           = BGPSTREAM_DATA_INTERFACE_SINGLEFILE
        /\ datasource (di_mgr s') = BGPSTREAM_DATA_INTERFACE_CSVFILE)
  /\ (exists e s',
        bgpstream_set_data_interface_option (Some started_stream)
          csv_file_option "list.csv" = Done e
        /\ after e = Some s'
        /\ retval e = 0
        /\ csvfile_file (options (di_mgr started_stream)) = None
        /\ csvfile_file (options (di_mgr s')) = Some "list.csv").
Proof.
  split; [discriminate|].
  split; eexists; eexists; repeat split.
Qed.

(** C4, on a fresh stream with one interval: the start succeeds. *)
Lemma start_from_allocated_witness :
  status fresh_stream = BGPSTREAM_STATUS_ALLOCATED
  /\ exists e s',
       bgpstream_start (Some fresh_stream) = Done e /\ after e = Some s'
       /\ retval e = 0 /\ status s' = BGPSTREAM_STATUS_ON.
Proof.
  split; [reflexivity|].
  destruct (start_from_allocated (M := spec_managers open_setting)
              fresh_stream eq_refl) as (e & s' & Hrun & Hafter & _ & _ & Hok).
  destruct (Hok eq_refl eq_refl) as (Hret & Hon & _).
  exists e, s'. repeat split; assumption.
Defined.

(** C5, on a started stream whose backend has nothing, and on one whose
    backend fails. *)
Lemma refill_end_of_stream_or_error_witness :
  (exists s',
     bgpstream_get_next_record 1 (Some started_stream) blank_record
     = Done (Eff (0, blank_record) (Some s') []))
  /\ (exists s',
     bgpstream_get_next_record 1 (Some failing_stream) blank_record
     = Done (Eff (-1, blank_record) (Some s') [])).
Proof.
  destruct (refill_end_of_stream_or_error (M := spec_managers open_setting)
              started_stream blank_record 0 0 _ _
              eq_refl eq_refl eq_refl eq_refl) as [Hend _].
  destruct (refill_end_of_stream_or_error (M := spec_managers open_setting)
              failing_stream blank_record 0 (-1) _ _
              eq_refl eq_refl eq_refl eq_refl) as [_ Hfail].
  split; eexists.
  - apply Hend. reflexivity.
  - apply Hfail. reflexivity.
Defined.

(** C6, on a fresh stream: an interval that ends at FOREVER is appended
    and turns the blocking flag on, an interval that ends earlier is
    appended and leaves the flag off. *)
Lemma add_interval_filter_live_hint_witness :
  status fresh_stream = BGPSTREAM_STATUS_ALLOCATED
  /\ (exists s',
        bgpstream_add_interval_filter (Some fresh_stream) 200
          BGPSTREAM_FOREVER = Done (Eff tt (Some s') [])
        /\ intervals (filter_mgr s') = [(0, 100); (200, 4294967295)]
        /\ blocking (di_mgr s') = 1)
  /\ (exists s',
        bgpstream_add_interval_filter (Some fresh_stream) 200 300
        = Done (Eff tt (Some s') [])
        /\ intervals (filter_mgr s') = [(0, 100); (200, 300)]
        /\ blocking (di_mgr s') = 0).
Proof.
  split; [reflexivity|].
  destruct (add_interval_filter_live_hint (M := spec_managers open_setting)
              fresh_stream 200 BGPSTREAM_FOREVER eq_refl)
    as [Hlive _].
  destruct (add_interval_filter_live_hint (M := spec_managers open_setting)
              fresh_stream 200 300 eq_refl)
    as [_ Hbounded].
  split; eexists.
  - split; [apply Hlive; reflexivity|]. split; reflexivity.
  - split; [apply Hbounded; reflexivity|]. split; reflexivity.
Defined.

(** C8, on a started stream and on the creation of a stream. *)
Lemma destroy_order_witness :
  (exists e,
     bgpstream_destroy (Some started_stream) = Done e
     /\ events e
        = [EvStatus BGPSTREAM_STATUS_OFF; EvDestroy INPUT_MGR;
           EvDestroy READER_MGR; EvDestroy FILTER_MGR; EvDestroy DI_MGR;
           EvFree])
  /\ (exists bs evs,
        bgpstream_create (M := spec_managers open_setting) true
        = (Some bs, evs)
        /\ created evs = [FILTER_MGR; DI_MGR; INPUT_MGR; READER_MGR]
        /\ status bs = BGPSTREAM_STATUS_ALLOCATED).
Proof.
  destruct (destroy_order (M := spec_managers open_setting) started_stream)
    as [(e & Hrun & _ & Hevents & _) Hcreate].
  split.
  - exists e. split; [exact Hrun | exact Hevents].
  - eexists; eexists. split; [reflexivity|].
    apply Hcreate. reflexivity.
Defined.

(** C8 as stated fails: the four managers are not destroyed in the
    reverse of the order in which they were created, and a stream that
    was never started is destroyed without passing through status
    OFF. *)
Lemma destroy_is_not_reverse_of_create :
  (exists e,
     bgpstream_destroy (Some started_stream) = Done e
     /\ destroyed (events e) = [INPUT_MGR; READER_MGR; FILTER_MGR; DI_MGR]
     /\ rev (created (snd (bgpstream_create
                             (M := spec_managers open_setting) true)))
        = [READER_MGR; INPUT_MGR; DI_MGR; FILTER_MGR]
     /\ destroyed (events e)
        <> rev (created (snd (bgpstream_create
                                (M := spec_managers open_setting) true))))
  /\ (exists e,
        bgpstream_destroy (Some fresh_stream) = Done e
        /\ ~ In (EvStatus BGPSTREAM_STATUS_OFF) (events e)).
Proof.
  split; eexists; (split; [reflexivity|]).
  - repeat split. discriminate.
  - simpl. intros H. repeat (destruct H as [H | H]; [discriminate|]).
    exact H.
Qed.

(** C9, on a live manager whose backend finds nothing three times: the
    sleeps last 30, 60 and 120 seconds. *)
Lemma backoff_schedule_witness :
  blocking live_manager <> 0
  /\ 0 < backoff_time live_manager <= DATASOURCE_BLOCKING_MAX_WAIT
  /\ waits 3 (backoff_time live_manager) = [30; 60; 120]
  /\ exists dm' im',
       datasource_mgr_get_queue live_manager [] = Some (1, dm', im')
       /\ slept dm' = [30; 60; 120]
       /\ backoff_time dm' = 30.
Proof.
  assert (Hlive : blocking live_manager <> 0) by discriminate.
  assert (Hb : 0 < backoff_time live_manager <= DATASOURCE_BLOCKING_MAX_WAIT)
    by (vm_compute; split; [reflexivity | discriminate]).
  split; [exact Hlive|]. split; [exact Hb|]. split; [reflexivity|].
  destruct (SpecFacts.backoff_schedule live_manager [] 3 later_file [] []
              Hlive Hb eq_refl)
    as [(dm' & im' & Hq & Hslept & Hreset & _) _].
  exists dm', im'. split; [exact Hq|]. split; [exact Hslept | exact Hreset].
Defined.

(** C10 as stated fails: [bgpstream_start] and the calls that configure
    the data interface read through a NULL handle. *)
Lemma null_handle_dereferenced :
  bgpstream_start (M := spec_managers open_setting) None = NullDeref
  /\ bgpstream_set_data_interface (M := spec_managers open_setting) None
       BGPSTREAM_DATA_INTERFACE_CSVFILE = NullDeref
  /\ bgpstream_set_data_interface_option (M := spec_managers open_setting)
       None csv_file_option "list.csv" = NullDeref
  /\ bgpstream_set_live_mode (M := spec_managers open_setting) None
     = NullDeref
  /\ bgpstream_get_data_interface_id (M := spec_managers open_setting) None
     = NullDeref.
Proof. repeat split. Qed.

End Examples.

(** * Further properties of the coordinator, for any managers *)

Section RefillFacts.

Context {M : Managers}.

Lemma fill_input_queue_exit (fuel : nat) (fm : filter_mgr_t) :
  forall (dm : di_mgr_t) (im : input_mgr_t) ex dm' im',
  fill_input_queue fuel fm dm im = Done (ex, dm', im') ->
  match ex with
  | Return rc => rc = 0 \/ rc = -1
  | Fallthrough => bgpstream_input_mgr_is_empty im' = false
  end.
Proof.
  induction fuel as [|fuel IH]; intros dm im ex dm' im' H; simpl in H;
    destruct (bgpstream_input_mgr_is_empty im) eqn:Eim;
    try discriminate;
    try (inversion H; subst; exact Eim).
  destruct (bgpstream_di_mgr_get_queue fm dm im) as [[[n dm1] im1]|];
    [|discriminate].
  destruct (n =? 0).
  - inversion H; subst. now left.
  - destruct (n <? 0).
    + inversion H; subst. now right.
    + exact (IH _ _ _ _ _ H).
Qed.

Lemma fill_reader_set_exit (fuel : nat) (fm : filter_mgr_t) :
  forall (dm : di_mgr_t) (im : input_mgr_t) (rm : reader_mgr_t)
         ex dm' im' rm',
  fill_reader_set fuel fm dm im rm = Done (ex, dm', im', rm') ->
  match ex with
  | Return rc =>
      (rc = 0 \/ rc = -1) /\ bgpstream_reader_mgr_is_empty rm' = true
  | Fallthrough => bgpstream_reader_mgr_is_empty rm' = false
  end.
Proof.
  induction fuel as [|fuel IH]; intros dm im rm ex dm' im' rm' H;
    cbn [fill_reader_set] in H;
    destruct (bgpstream_reader_mgr_is_empty rm) eqn:Erm;
    try discriminate;
    try (inversion H; subst; exact Erm).
  destruct (fill_input_queue (S fuel) fm dm im)
    as [[[ex1 dm1] im1] | | |] eqn:Ein; try discriminate.
  cbn [bind] in H.
  pose proof (fill_input_queue_exit _ _ _ _ _ _ _ Ein) as Hex.
  destruct ex1 as [rc|].
  - inversion H; subst. split; assumption.
  - destruct (bgpstream_input_mgr_get_queue_to_process im1) as [bs_in im2].
    exact (IH _ _ _ _ _ _ _ H).
Qed.

(** X1: a call of [bgpstream_get_next_record] on a started stream that
    returns leaves the status ON and the filters as they were and logs
    nothing.  Either it returns 0 or -1 with the caller's record merely
    cleared and no reader open, or its return value and record are those
    of the reader manager, asked when it had a reader open. *)
Theorem next_record_outcome (s : bgpstream_t) (record : record_t)
    (fuel : nat) (e : effect (Z * record_t)) :
  status s = BGPSTREAM_STATUS_ON ->
  bgpstream_get_next_record fuel (Some s) record = Done e ->
  exists s',
    after e = Some s'
    /\ status s' = BGPSTREAM_STATUS_ON
    /\ filter_mgr s' = filter_mgr s
    /\ events e = []
    /\ (((fst (retval e) = 0 \/ fst (retval e) = -1)
         /\ snd (retval e) = bgpstream_record_clear record
         /\ bgpstream_reader_mgr_is_empty (reader_mgr s') = true)
        \/ (exists rm,
              bgpstream_reader_mgr_is_empty rm = false
              /\ bgpstream_reader_mgr_get_next_record rm
                   (bgpstream_record_set_bs (bgpstream_record_clear record))
                   (filter_mgr s)
                 = (fst (retval e), reader_mgr s', snd (retval e)))).
Proof.
  intros Hst H. unfold bgpstream_get_next_record in H.
  rewrite Hst in H. cbn [status_eqb negb] in H.
  destruct (fill_reader_set fuel (filter_mgr s) (di_mgr s) (input_mgr s)
              (reader_mgr s)) as [[[[ex dm] im] rm] | | |] eqn:Efill;
    try discriminate.
  cbn [bind] in H.
  pose proof (fill_reader_set_exit _ _ _ _ _ _ _ _ _ Efill) as Hex.
  destruct ex as [rc|].
  - inversion H; subst. eexists. split; [reflexivity|]. simpl.
    repeat split. left. destruct Hex as [Hrc Hrm]. auto.
  - destruct (bgpstream_reader_mgr_get_next_record rm
                (bgpstream_record_set_bs (bgpstream_record_clear record))
                (filter_mgr s)) as [[rc rm1] record3] eqn:Enext.
    inversion H; subst. eexists. split; [reflexivity|]. simpl.
    repeat split. right. exists rm. split; assumption.
Qed.

(** X2: while a reader is open the data interface is not queried and the
    input queue is not touched, whatever the loop bound: the call hands
    the cleared record, with its back pointer set, to the reader manager
    and returns what the reader manager returns. *)
Theorem no_query_while_reading (s : bgpstream_t) (record : record_t)
    (fuel : nat) :
  status s = BGPSTREAM_STATUS_ON ->
  bgpstream_reader_mgr_is_empty (reader_mgr s) = false ->
  exists e s',
    bgpstream_get_next_record fuel (Some s) record = Done e
    /\ after e = Some s'
    /\ di_mgr s' = di_mgr s
    /\ input_mgr s' = input_mgr s
    /\ bgpstream_reader_mgr_get_next_record (reader_mgr s)
         (bgpstream_record_set_bs (bgpstream_record_clear record))
         (filter_mgr s)
       = (fst (retval e), reader_mgr s', snd (retval e)).
Proof.
  intros Hst Hrm. unfold bgpstream_get_next_record.
  rewrite Hst. cbn [status_eqb negb].
  assert (Hfill : fill_reader_set fuel (filter_mgr s) (di_mgr s)
                    (input_mgr s) (reader_mgr s)
                  = Done (Fallthrough, di_mgr s, input_mgr s, reader_mgr s)).
  { destruct fuel; cbn [fill_reader_set]; rewrite Hrm; reflexivity. }
  rewrite Hfill. cbn [bind].
  destruct (bgpstream_reader_mgr_get_next_record (reader_mgr s)
              (bgpstream_record_set_bs (bgpstream_record_clear record))
              (filter_mgr s)) as [[rc rm1] record3].
  eexists; eexists. split; [reflexivity|]. simpl. repeat split.
Qed.

(** X3: inputs that wait in the queue are opened before the data
    interface is asked again: with no reader open and a queue that is not
    empty, the whole queue goes to the reader manager, and if that opens
    a reader the record comes from it and the data interface has not been
    queried. *)
Theorem queued_inputs_before_query (s : bgpstream_t) (record : record_t)
    (fuel : nat) :
  status s = BGPSTREAM_STATUS_ON ->
  bgpstream_reader_mgr_is_empty (reader_mgr s) = true ->
  bgpstream_input_mgr_is_empty (input_mgr s) = false ->
  bgpstream_reader_mgr_is_empty
    (bgpstream_reader_mgr_add (reader_mgr s)
       (fst (bgpstream_input_mgr_get_queue_to_process (input_mgr s)))
       (filter_mgr s)) = false ->
  exists e s',
    bgpstream_get_next_record (S fuel) (Some s) record = Done e
    /\ after e = Some s'
    /\ di_mgr s' = di_mgr s
    /\ input_mgr s'
       = snd (bgpstream_input_mgr_get_queue_to_process (input_mgr s))
    /\ bgpstream_reader_mgr_get_next_record
         (bgpstream_reader_mgr_add (reader_mgr s)
            (fst (bgpstream_input_mgr_get_queue_to_process (input_mgr s)))
            (filter_mgr s))
         (bgpstream_record_set_bs (bgpstream_record_clear record))
         (filter_mgr s)
       = (fst (retval e), reader_mgr s', snd (retval e)).
Proof.
  intros Hst Hrm Him Hopen. unfold bgpstream_get_next_record.
  rewrite Hst. cbn [status_eqb negb].
  cbn [fill_reader_set fill_input_queue]. rewrite Hrm, Him. cbn [bind].
  destruct (bgpstream_input_mgr_get_queue_to_process (input_mgr s))
    as [bs_in im2]. cbn [fst snd] in *.
  assert (Hfill : fill_reader_set fuel (filter_mgr s) (di_mgr s) im2
                    (bgpstream_reader_mgr_add (reader_mgr s) bs_in
                       (filter_mgr s))
                  = Done (Fallthrough, di_mgr s, im2,
                          bgpstream_reader_mgr_add (reader_mgr s) bs_in
                            (filter_mgr s))).
  { destruct fuel; cbn [fill_reader_set]; rewrite Hopen; reflexivity. }
  rewrite Hfill. cbn [bind].
  destruct (bgpstream_reader_mgr_get_next_record
              (bgpstream_reader_mgr_add (reader_mgr s) bs_in (filter_mgr s))
              (bgpstream_record_set_bs (bgpstream_record_clear record))
              (filter_mgr s)) as [[rc rm1] record3].
  eexists; eexists. split; [reflexivity|]. simpl. repeat split.
Qed.

Lemma fill_input_queue_spins (fm : filter_mgr_t) :
  (forall dm im,
     bgpstream_input_mgr_is_empty im = true ->
     exists n dm' im',
       bgpstream_di_mgr_get_queue fm dm im = Some (n, dm', im')
       /\ 0 < n /\ bgpstream_input_mgr_is_empty im' = true) ->
  forall fuel dm im,
    bgpstream_input_mgr_is_empty im = true ->
    fill_input_queue fuel fm dm im = OutOfFuel.
Proof.
  intros Hq. induction fuel as [|fuel IH]; intros dm im Him; simpl;
    rewrite Him; [reflexivity|].
  destruct (Hq dm im Him) as (n & dm' & im' & Hget & Hn & Him').
  rewrite Hget.
  destruct (Z.eqb_spec n 0) as [E | _]; [lia|].
  destruct (Z.ltb_spec n 0) as [E | _]; [lia|].
  now apply IH.
Qed.

(** X4: the inner loop relies on the data interface manager to put what
    it reports into the input queue.  With a manager that keeps reporting
    a positive number of results while the queue stays empty, a call on a
    started stream without open reader never returns: it exhausts every
    loop bound. *)
Theorem next_record_spins_on_phantom_results (s : bgpstream_t)
    (record : record_t) :
  (forall dm im,
     bgpstream_input_mgr_is_empty im = true ->
     exists n dm' im',
       bgpstream_di_mgr_get_queue (filter_mgr s) dm im = Some (n, dm', im')
       /\ 0 < n /\ bgpstream_input_mgr_is_empty im' = true) ->
  status s = BGPSTREAM_STATUS_ON ->
  bgpstream_reader_mgr_is_empty (reader_mgr s) = true ->
  bgpstream_input_mgr_is_empty (input_mgr s) = true ->
  forall fuel,
    bgpstream_get_next_record fuel (Some s) record = OutOfFuel.
Proof.
  intros Hq Hst Hrm Him fuel. unfold bgpstream_get_next_record.
  rewrite Hst. cbn [status_eqb negb].
  destruct fuel as [|fuel]; cbn [fill_reader_set]; rewrite Hrm;
    [reflexivity|].
  rewrite (fill_input_queue_spins (filter_mgr s) Hq (S fuel) _ _ Him).
  reflexivity.
Qed.

End RefillFacts.

Section LifecycleFacts.

Context {M : Managers}.


(** X7: [bgpstream_start] does not look at the status.  On any stream
    whose filters validate but whose data interface fails to start, a
    started one included, it returns -1 and stores status ALLOCATED, and
    the filter calls are accepted again: a following
    [bgpstream_add_filter] reaches the filter manager. *)
Theorem failed_start_reopens_configuration (s : bgpstream_t) :
  bgpstream_filter_mgr_validate (filter_mgr s) = 0 ->
  fst (bgpstream_di_mgr_start (filter_mgr s) (di_mgr s)) <> 0 ->
  exists e s',
    bgpstream_start (Some s) = Done e
    /\ after e = Some s'
    /\ retval e = -1
    /\ status s' = BGPSTREAM_STATUS_ALLOCATED
    /\ filter_mgr s' = filter_mgr s
    /\ forall ft v,
         bgpstream_add_filter (Some s') ft v
         = Done (Eff tt
             (Some (set_filter_mgr s'
                (bgpstream_filter_mgr_filter_add (filter_mgr s) ft v))) []).
Proof.
  intros Hv Hdi. unfold bgpstream_start. rewrite Hv. simpl.
  destruct (bgpstream_di_mgr_start (filter_mgr s) (di_mgr s))
    as [rc_di dm]. simpl in Hdi.
  destruct (Z.eqb_spec rc_di 0) as [E | _]; [contradiction|]. simpl.
  eexists; eexists. split; [reflexivity|]. simpl. repeat split.
Qed.

(** X8: [bgpstream_add_recent_interval_filter] acts as
    [bgpstream_add_interval_filter] on the interval its helper computed,
    on every handle and in every status: with the live flag, on the
    interval from the start time to [BGPSTREAM_FOREVER]; without it, on
    the computed interval, provided its end is not [BGPSTREAM_FOREVER].
    In that last case the two differ: the interval is added by both, but
    only [bgpstream_add_interval_filter] sets the blocking flag. *)
Theorem add_recent_is_add_interval (bs : handle) (now : Z)
    (interval : string) (islive rc starttime endtime : Z) :
  bgpstream_time_calc_recent_interval now interval
  = (rc, (starttime, endtime)) ->
  rc <> 0 ->
  (islive <> 0 ->
     bgpstream_add_recent_interval_filter now bs interval islive
     = bgpstream_add_interval_filter bs starttime BGPSTREAM_FOREVER)
  /\ (islive = 0 -> endtime <> BGPSTREAM_FOREVER ->
      bgpstream_add_recent_interval_filter now bs interval islive
      = bgpstream_add_interval_filter bs starttime endtime)
  /\ (islive = 0 -> endtime = BGPSTREAM_FOREVER ->
      forall s,
        bs = Some s -> status s = BGPSTREAM_STATUS_ALLOCATED ->
        bgpstream_add_recent_interval_filter now bs interval islive
        = Done (Eff tt
            (Some (mk_bgpstream
                     (bgpstream_filter_mgr_interval_filter_add (filter_mgr s)
                        starttime endtime)
                     (di_mgr s) (input_mgr s) (reader_mgr s)
                     BGPSTREAM_STATUS_ALLOCATED)) [])
        /\ bgpstream_add_interval_filter bs starttime endtime
           = Done (Eff tt
               (Some (mk_bgpstream
                        (bgpstream_filter_mgr_interval_filter_add
                           (filter_mgr s) starttime endtime)
                        (bgpstream_di_mgr_set_blocking (di_mgr s))
                        (input_mgr s) (reader_mgr s)
                        BGPSTREAM_STATUS_ALLOCATED)) [])).
Proof.
  intros Hcalc Hrc.
  unfold bgpstream_add_recent_interval_filter, bgpstream_add_interval_filter.
  split; [|split].
  - intros Hlive. destruct bs as [s|]; [|reflexivity].
    destruct (negb (status_eqb (status s) BGPSTREAM_STATUS_ALLOCATED));
      [reflexivity|].
    rewrite Hcalc.
    destruct (Z.eqb_spec rc 0) as [E | _]; [contradiction|].
    destruct (Z.eqb_spec islive 0) as [E | _]; [contradiction|].
    rewrite Z.eqb_refl. reflexivity.
  - intros Hlive Hend. subst islive. destruct bs as [s|]; [|reflexivity].
    destruct (negb (status_eqb (status s) BGPSTREAM_STATUS_ALLOCATED));
      [reflexivity|].
    rewrite Hcalc.
    destruct (Z.eqb_spec rc 0) as [E | _]; [contradiction|].
    destruct (Z.eqb_spec endtime BGPSTREAM_FOREVER) as [E | _];
      [contradiction|].
    reflexivity.
  - intros Hlive Hend s Hbs Hst. subst islive bs.
    rewrite Hst, Hcalc. cbn [status_eqb negb].
    destruct (Z.eqb_spec rc 0) as [E | _]; [contradiction|].
    rewrite Hend, Z.eqb_refl.
    unfold set_filter_mgr, set_live_mode, set_di_mgr. simpl.
    rewrite Hst. split; reflexivity.
Qed.

(** What one call that returns does to the stream. *)
Lemma run_call_frame (c : call) (s s' : bgpstream_t) :
  run_call c s = Some s' ->
  (is_start c = false -> status s' = status s)
  /\ (status s <> BGPSTREAM_STATUS_ALLOCATED -> filter_mgr s' = filter_mgr s)
  /\ (status s <> BGPSTREAM_STATUS_OFF -> status s' <> BGPSTREAM_STATUS_OFF)
  /\ (is_get_next_record c = false ->
      input_mgr s' = input_mgr s /\ reader_mgr s' = reader_mgr s)
  /\ (is_plain_filter_call c = true -> di_mgr s' = di_mgr s).
Proof.
  destruct c; cbn [run_call is_start is_get_next_record is_plain_filter_call].
  - (* AddFilter *)
    unfold bgpstream_add_filter.
    destruct (status_eqb (status s) BGPSTREAM_STATUS_ALLOCATED) eqn:E;
      cbn [negb after_call after]; intros H; inversion H; subst;
      cbn [set_filter_mgr status filter_mgr input_mgr reader_mgr di_mgr];
      repeat split; auto.
    apply status_eqb_eq in E. intros; contradiction.
  - (* AddRibPeriodFilter *)
    unfold bgpstream_add_rib_period_filter.
    destruct (status_eqb (status s) BGPSTREAM_STATUS_ALLOCATED) eqn:E;
      cbn [negb after_call after]; intros H; inversion H; subst;
      cbn [set_filter_mgr status filter_mgr input_mgr reader_mgr di_mgr];
      repeat split; auto.
    apply status_eqb_eq in E. intros; contradiction.
  - (* AddRecentIntervalFilter *)
    unfold bgpstream_add_recent_interval_filter.
    destruct (status_eqb (status s) BGPSTREAM_STATUS_ALLOCATED) eqn:E;
      cbn [negb].
    2:{ cbn [after_call after]. intros H; inversion H; subst.
        repeat split; auto. }
    apply status_eqb_eq in E.
    destruct (bgpstream_time_calc_recent_interval now interval)
      as [rc [starttime endtime]].
    destruct (rc =? 0).
    { cbn [after_call after]. intros H; inversion H; subst.
      repeat split; auto. }
    destruct (islive =? 0) eqn:El; cbn [negb after_call after];
      intros H; inversion H; subst;
      unfold set_filter_mgr, set_live_mode, set_di_mgr;
      cbn [status filter_mgr input_mgr reader_mgr di_mgr];
      repeat split; auto; try (intros; contradiction); try discriminate.
  - (* AddIntervalFilter *)
    unfold bgpstream_add_interval_filter.
    destruct (status_eqb (status s) BGPSTREAM_STATUS_ALLOCATED) eqn:E;
      cbn [negb].
    2:{ cbn [after_call after]. intros H; inversion H; subst.
        repeat split; auto. }
    apply status_eqb_eq in E.
    destruct (end_time =? BGPSTREAM_FOREVER) eqn:Ee;
      cbn [negb after_call after];
      intros H; inversion H; subst;
      unfold set_filter_mgr, set_live_mode, set_di_mgr;
      cbn [status filter_mgr input_mgr reader_mgr di_mgr];
      repeat split; auto; try (intros; contradiction); try discriminate.
  - (* SetDataInterfaceOption *)
    unfold bgpstream_set_data_interface_option.
    destruct (bgpstream_di_mgr_set_data_interface_option (di_mgr s)
                option_type option_value) as [rc dm].
    cbn [after_call after]. intros H; inversion H; subst.
    cbn [set_di_mgr status filter_mgr input_mgr reader_mgr].
    repeat split; auto; discriminate.
  - (* SetDataInterface *)
    unfold bgpstream_set_data_interface.
    cbn [after_call after]. intros H; inversion H; subst.
    cbn [set_di_mgr status filter_mgr input_mgr reader_mgr].
    repeat split; auto; discriminate.
  - (* SetLiveMode *)
    unfold bgpstream_set_live_mode, set_live_mode.
    cbn [after_call after]. intros H; inversion H; subst.
    cbn [set_di_mgr status filter_mgr input_mgr reader_mgr].
    repeat split; auto; discriminate.
  - (* Start *)
    unfold bgpstream_start.
    destruct (bgpstream_filter_mgr_validate (filter_mgr s) =? 0);
      cbn [negb].
    2:{ cbn [after_call after]. intros H; inversion H; subst.
        repeat split; auto; discriminate. }
    destruct (bgpstream_di_mgr_start (filter_mgr s) (di_mgr s))
      as [rc_di dm].
    destruct (rc_di =? 0); cbn [negb after_call after];
      intros H; inversion H; subst;
      cbn [set_status set_di_mgr status filter_mgr input_mgr reader_mgr];
      repeat split; auto; discriminate.
  - (* GetNextRecord *)
    unfold bgpstream_get_next_record.
    destruct (status_eqb (status s) BGPSTREAM_STATUS_ON) eqn:E; cbn [negb].
    2:{ cbn [after_call after]. intros H; inversion H; subst.
        repeat split; auto; discriminate. }
    destruct (fill_reader_set fuel (filter_mgr s) (di_mgr s) (input_mgr s)
                (reader_mgr s)) as [[[[ex dm] im] rm] | | |];
      cbn [bind after_call]; try discriminate.
    destruct ex as [rc|].
    + cbn [after]. intros H; inversion H; subst.
      cbn [status filter_mgr]. repeat split; auto; discriminate.
    + destruct (bgpstream_reader_mgr_get_next_record rm
                  (bgpstream_record_set_bs (bgpstream_record_clear record))
                  (filter_mgr s)) as [[rc rm1] record3].
      cbn [after]. intros H; inversion H; subst.
      cbn [status filter_mgr]. repeat split; auto; discriminate.
Qed.

(** X9: the status of a stream is stored by [bgpstream_start] only:
    after any sequence of the other calls that all return, the status is
    what it was. *)
Theorem status_changed_by_start_only (cs : list call) :
  forall s s',
  forallb (fun c => negb (is_start c)) cs = true ->
  run_calls cs s = Some s' ->
  status s' = status s.
Proof.
  induction cs as [|c cs IH]; intros s s' Hcs Hrun; simpl in *.
  - now inversion Hrun.
  - apply andb_true_iff in Hcs. destruct Hcs as [Hc Hcs].
    apply negb_true_iff in Hc.
    destruct (run_call c s) as [s1|] eqn:E; [|discriminate].
    destruct (run_call_frame c s s1 E) as (Hst & _).
    rewrite (IH s1 s' Hcs Hrun). now apply Hst.
Qed.

(** X10: outside status ALLOCATED the filters are frozen: no sequence of
    calls without [bgpstream_start] changes what the filter manager
    holds, whatever the calls and their arguments are. *)
Theorem filters_frozen_outside_allocated (cs : list call) :
  forall s s',
  status s <> BGPSTREAM_STATUS_ALLOCATED ->
  forallb (fun c => negb (is_start c)) cs = true ->
  run_calls cs s = Some s' ->
  filter_mgr s' = filter_mgr s.
Proof.
  induction cs as [|c cs IH]; intros s s' Hst Hcs Hrun; simpl in *.
  - now inversion Hrun.
  - apply andb_true_iff in Hcs. destruct Hcs as [Hc Hcs].
    apply negb_true_iff in Hc.
    destruct (run_call c s) as [s1|] eqn:E; [|discriminate].
    destruct (run_call_frame c s s1 E) as (Hstatus & Hfm & _).
    rewrite (IH s1 s' ltac:(rewrite (Hstatus Hc); exact Hst) Hcs Hrun).
    now apply Hfm.
Qed.

(** X11: no call leaves a stream behind in status OFF unless it was OFF
    before: status OFF is only stored on the way to [free]. *)
Theorem never_left_off (cs : list call) :
  forall s s',
  status s <> BGPSTREAM_STATUS_OFF ->
  run_calls cs s = Some s' ->
  status s' <> BGPSTREAM_STATUS_OFF.
Proof.
  induction cs as [|c cs IH]; intros s s' Hst Hrun; simpl in *.
  - inversion Hrun; subst. exact Hst.
  - destruct (run_call c s) as [s1|] eqn:E; [|discriminate].
    destruct (run_call_frame c s s1 E) as (_ & _ & Hoff & _).
    exact (IH s1 s' (Hoff Hst) Hrun).
Qed.

(** X12: only [bgpstream_get_next_record] touches the input queue and
    the readers: configuring and starting a stream opens no file. *)
Theorem configuration_opens_nothing (cs : list call) :
  forall s s',
  forallb (fun c => negb (is_get_next_record c)) cs = true ->
  run_calls cs s = Some s' ->
  input_mgr s' = input_mgr s /\ reader_mgr s' = reader_mgr s.
Proof.
  induction cs as [|c cs IH]; intros s s' Hcs Hrun; simpl in *.
  - inversion Hrun; subst. split; reflexivity.
  - apply andb_true_iff in Hcs. destruct Hcs as [Hc Hcs].
    apply negb_true_iff in Hc.
    destruct (run_call c s) as [s1|] eqn:E; [|discriminate].
    destruct (run_call_frame c s s1 E) as (_ & _ & _ & Hio & _).
    destruct (Hio Hc) as [Hi Hr].
    destruct (IH s1 s' Hcs Hrun) as [Hi' Hr'].
    split; congruence.
Qed.

(** X13: filter calls that do not ask for live mode (any end time but
    [BGPSTREAM_FOREVER], live flag 0) never reach the data interface
    manager, in whatever status they are made. *)
Theorem plain_filter_calls_keep_data_interface (cs : list call) :
  forall s s',
  forallb is_plain_filter_call cs = true ->
  run_calls cs s = Some s' ->
  di_mgr s' = di_mgr s.
Proof.
  induction cs as [|c cs IH]; intros s s' Hcs Hrun; simpl in *.
  - now inversion Hrun.
  - apply andb_true_iff in Hcs. destruct Hcs as [Hc Hcs].
    destruct (run_call c s) as [s1|] eqn:E; [|discriminate].
    destruct (run_call_frame c s s1 E) as (_ & _ & _ & _ & Hdi).
    rewrite (IH s1 s' Hcs Hrun). now apply Hdi.
Qed.

End LifecycleFacts.

Section OptionFacts.

Context {M : Managers} {T : OptionTable M}.

Lemma scan_options_sound (name : string)
    (arr : list data_interface_option_t) (todo : nat) :
  forall i j o,
  scan_options name arr i todo = OptionAt j o ->
  nth_error arr j = Some o
  /\ option_name o = name
  /\ (i <= j < i + todo)%nat
  /\ forall k o',
       (i <= k < j)%nat -> nth_error arr k = Some o' ->
       option_name o' <> name.
Proof.
  induction todo as [|todo IH]; intros i j o H; simpl in H;
    [discriminate|].
  destruct (nth_error arr i) as [x|] eqn:Ex; [|discriminate].
  destruct (String.eqb_spec (option_name x) name) as [En | En].
  - inversion H; subst. repeat split; auto; try lia.
  - destruct (IH _ _ _ H) as (H1 & H2 & H3 & H4).
    repeat split; auto; try lia.
    intros k o' Hk Ho'.
    destruct (Nat.eq_dec k i) as [-> | Hne].
    + congruence.
    + apply (H4 k o'); [lia | assumption].
Qed.

Lemma scan_options_find (name : string)
    (l : list data_interface_option_t) :
  forall pre extra,
  match find (fun o => String.eqb (option_name o) name) l with
  | Some o =>
      exists j,
        scan_options name (pre ++ l) (List.length pre)
          (List.length l + extra) = OptionAt j o
  | None =>
      scan_options name (pre ++ l) (List.length pre) (List.length l + extra)
      = match extra with
        | O => OptionNULL
        | S _ => OptionOutOfBounds (List.length (pre ++ l))
        end
  end.
Proof.
  induction l as [|x l IH]; intros pre extra.
  - simpl. rewrite app_nil_r. destruct extra; [reflexivity|].
    simpl. rewrite (proj2 (nth_error_None pre (List.length pre)));
      [reflexivity | lia].
  - cbn [find List.length Nat.add scan_options].
    rewrite nth_error_app2 by lia. rewrite Nat.sub_diag. cbn [nth_error].
    destruct (String.eqb (option_name x) name).
    + eexists. reflexivity.
    + specialize (IH (pre ++ [x]) extra).
      rewrite <- app_assoc in IH. cbn [app] in IH.
      rewrite length_app in IH. cbn [List.length] in IH.
      rewrite Nat.add_1_r in IH. exact IH.
Qed.

(** X14: when [bgpstream_get_data_interface_option_by_name] returns the
    address of an option, that option lies in the array published for
    the interface, within the published count, it has the name asked for
    and no option before it has that name; the stream is unchanged. *)
Theorem option_by_name_first_match (s : bgpstream_t)
    (if_id : data_interface_id_t) (name : string)
    (e : effect option_lookup) (i : nat) (o : data_interface_option_t) :
  bgpstream_get_data_interface_option_by_name (Some s) if_id name = Done e ->
  retval e = OptionAt i o ->
  after e = Some s
  /\ exists arr,
       snd (bgpstream_di_mgr_get_data_interface_options (di_mgr s) if_id)
       = Some arr
       /\ nth_error arr i = Some o
       /\ option_name o = name
       /\ Z.of_nat i
          < fst (bgpstream_di_mgr_get_data_interface_options (di_mgr s) if_id)
       /\ forall k o',
            (k < i)%nat -> nth_error arr k = Some o' ->
            option_name o' <> name.
Proof.
  unfold bgpstream_get_data_interface_option_by_name,
    bgpstream_get_data_interface_options. cbn [bind retval after].
  destruct (bgpstream_di_mgr_get_data_interface_options (di_mgr s) if_id)
    as [opt_cnt [arr|]]; cbn [fst snd].
  2:{ intros H Hr. inversion H; subst. discriminate. }
  destruct (opt_cnt =? 0).
  { intros H Hr. inversion H; subst. discriminate. }
  intros H Hr. inversion H; subst. cbn [retval after] in *.
  split; [reflexivity|]. exists arr. split; [reflexivity|].
  destruct (scan_options_sound _ _ _ _ _ _ Hr) as (H1 & H2 & H3 & H4).
  repeat split; auto.
  - lia.
  - intros k o' Hk. apply H4. lia.
Qed.

(** X15: when the published count is the length of the published array,
    the lookup is a search for the first option with the name: it returns
    the address of the first such option if there is one and NULL
    otherwise, and never reads behind the array. *)
Theorem option_by_name_is_find (s : bgpstream_t)
    (if_id : data_interface_id_t) (name : string)
    (arr : list data_interface_option_t) :
  bgpstream_di_mgr_get_data_interface_options (di_mgr s) if_id
  = (Z.of_nat (List.length arr), Some arr) ->
  exists e,
    bgpstream_get_data_interface_option_by_name (Some s) if_id name = Done e
    /\ match find (fun o => String.eqb (option_name o) name) arr with
       | Some o => exists i, retval e = OptionAt i o
       | None => retval e = OptionNULL
       end.
Proof.
  intros Hopts.
  unfold bgpstream_get_data_interface_option_by_name,
    bgpstream_get_data_interface_options. cbn [bind retval after].
  rewrite Hopts.
  destruct (Z.eqb_spec (Z.of_nat (List.length arr)) 0) as [E | E].
  - destruct arr; [|discriminate]. eexists. split; reflexivity.
  - eexists. split; [reflexivity|]. cbn [retval].
    rewrite Nat2Z.id.
    pose proof (scan_options_find name arr [] O) as Hfind.
    cbn [app List.length] in Hfind. rewrite Nat.add_0_r in Hfind.
    exact Hfind.
Qed.

(** X16: the loop trusts the published count.  When the count is larger
    than the array and no option of the array has the name, the lookup
    reads the element right behind the array; when the manager stores
    NULL or publishes a count that is zero or negative, it returns
    NULL. *)
Theorem option_by_name_trusts_count (s : bgpstream_t)
    (if_id : data_interface_id_t) (name : string) (opt_cnt : Z)
    (options : option (list data_interface_option_t)) :
  bgpstream_di_mgr_get_data_interface_options (di_mgr s) if_id
  = (opt_cnt, options) ->
  exists e,
    bgpstream_get_data_interface_option_by_name (Some s) if_id name = Done e
    /\ (options = None \/ opt_cnt <= 0 -> retval e = OptionNULL)
    /\ (forall arr,
          options = Some arr ->
          Z.of_nat (List.length arr) < opt_cnt ->
          find (fun o => String.eqb (option_name o) name) arr = None ->
          retval e = OptionOutOfBounds (List.length arr)).
Proof.
  intros Hopts.
  unfold bgpstream_get_data_interface_option_by_name,
    bgpstream_get_data_interface_options. cbn [bind retval after].
  rewrite Hopts.
  destruct options as [arr|].
  2:{ eexists. split; [reflexivity|]. split; [reflexivity|]. discriminate. }
  destruct (Z.eqb_spec opt_cnt 0) as [E | E].
  - eexists. split; [reflexivity|]. split; [reflexivity|].
    intros arr' _ Hlen. lia.
  - eexists. split; [reflexivity|]. cbn [retval]. split.
    + intros [Hnone | Hneg]; [discriminate|].
      destruct opt_cnt; try lia. reflexivity.
    + intros arr' Harr Hlen Hfind. inversion Harr; subst arr'.
      pose proof (scan_options_find name arr []
                    (Z.to_nat opt_cnt - List.length arr)) as Hscan.
      rewrite Hfind in Hscan. cbn [app List.length] in Hscan.
      replace (List.length arr + (Z.to_nat opt_cnt - List.length arr))%nat
        with (Z.to_nat opt_cnt) in Hscan by lia.
      rewrite Hscan.
      destruct (Z.to_nat opt_cnt - List.length arr)%nat eqn:Ek; [lia|].
      reflexivity.
Qed.

End OptionFacts.

(** * The further properties on concrete streams *)

Module Examples2.

Import SpecModel Fixture Fixture2.
Local Open Scope string_scope.
Local Open Scope Z_scope.

(** X1, on the first call on the stream with a catalog in time order. *)
Lemma next_record_outcome_witness :
  status ordered_stream = BGPSTREAM_STATUS_ON
  /\ exists e s',
       bgpstream_get_next_record 5 (Some ordered_stream) blank_record
       = Done e
       /\ after e = Some s'
       /\ status s' = BGPSTREAM_STATUS_ON
       /\ filter_mgr s' = filter_mgr ordered_stream
       /\ fst (retval e) = 1.
Proof.
  split; [reflexivity|].
  destruct (next_record_outcome (M := spec_managers open_setting)
              ordered_stream blank_record 5 _ eq_refl eq_refl)
    as (s' & Hafter & Hst & Hfm & _).
  eexists. exists s'. split; [reflexivity|].
  split; [exact Hafter|]. split; [exact Hst|]. split; [exact Hfm|].
  reflexivity.
Defined.

(** X2, on a stream with an open reader and a catalog that still has a
    file to offer, with loop bound 0. *)
Lemma no_query_while_reading_witness :
  status reading_stream = BGPSTREAM_STATUS_ON
  /\ bgpstream_reader_mgr_is_empty (Managers := spec_managers open_setting)
       (reader_mgr reading_stream) = false
  /\ exists e s',
       bgpstream_get_next_record 0 (Some reading_stream) blank_record
       = Done e
       /\ after e = Some s'
       /\ backend (di_mgr s') = [Descriptors [rib_file]]
       /\ fst (retval e) = 1.
Proof.
  split; [reflexivity|]. split; [reflexivity|].
  destruct (no_query_while_reading (M := spec_managers open_setting)
              reading_stream blank_record 0 eq_refl eq_refl)
    as (e & s' & Hrun & Hafter & Hdi & _ & Hnext).
  exists e, s'. split; [exact Hrun|]. split; [exact Hafter|].
  split; [rewrite Hdi; reflexivity|].
  simpl in Hnext. injection Hnext as Hrc _ _. symmetry. exact Hrc.
Defined.

(** X3, on a stream with a file waiting in the input queue. *)
Lemma queued_inputs_before_query_witness :
  status queued_stream = BGPSTREAM_STATUS_ON
  /\ exists e s',
       bgpstream_get_next_record 1 (Some queued_stream) blank_record
       = Done e
       /\ after e = Some s'
       /\ backend (di_mgr s') = [Descriptors [rib_file]]
       /\ input_mgr s' = []
       /\ fst (retval e) = 1.
Proof.
  split; [reflexivity|].
  destruct (queued_inputs_before_query (M := spec_managers open_setting)
              queued_stream blank_record 0 eq_refl eq_refl eq_refl eq_refl)
    as (e & s' & Hrun & Hafter & Hdi & Him & Hnext).
  exists e, s'. split; [exact Hrun|]. split; [exact Hafter|].
  split; [rewrite Hdi; reflexivity|]. split; [exact Him|].
  simpl in Hnext. injection Hnext as Hrc _ _. symmetry. exact Hrc.
Defined.

(** X4, on managers whose data interface reports a result and queues
    nothing. *)
Lemma next_record_spins_witness :
  status idle_stream = BGPSTREAM_STATUS_ON
  /\ bgpstream_get_next_record (M := idle_managers true) 1000
       (Some idle_stream) tt = OutOfFuel.
Proof.
  split; [reflexivity|].
  apply (next_record_spins_on_phantom_results (M := idle_managers true)
           idle_stream tt); try reflexivity.
  intros dm im _. exists 1, tt, tt. repeat split.
Defined.


(** X7, on a started stream whose backend cannot be opened any more. *)
Lemma failed_start_reopens_configuration_witness :
  status broken_backend_stream = BGPSTREAM_STATUS_ON
  /\ exists e s',
       bgpstream_start (Some broken_backend_stream) = Done e
       /\ after e = Some s'
       /\ retval e = -1
       /\ status s' = BGPSTREAM_STATUS_ALLOCATED
       /\ exists s'',
            bgpstream_add_filter (Some s') FILTER_COLLECTOR "rrc00"
            = Done (Eff tt (Some s'') [])
            /\ filters (filter_mgr s'') = [(FILTER_COLLECTOR, "rrc00")].
Proof.
  split; [reflexivity|].
  assert (Hdi : fst (bgpstream_di_mgr_start
                       (Managers := spec_managers open_setting)
                       (filter_mgr broken_backend_stream)
                       (di_mgr broken_backend_stream)) <> 0)
    by discriminate.
  destruct (failed_start_reopens_configuration
              (M := spec_managers open_setting) broken_backend_stream
              eq_refl Hdi)
    as (e & s' & Hrun & Hafter & Hret & Hst & Hfm & Hadd).
  exists e, s'. split; [exact Hrun|]. split; [exact Hafter|].
  split; [exact Hret|]. split; [exact Hst|].
  eexists. split; [apply Hadd|].
  unfold set_filter_mgr. reflexivity.
Defined.

(** X8, on a fresh stream: one hour back from time 10000, with and
    without the live flag, and one hour back from the last second of the
    clock. *)
Lemma add_recent_is_add_interval_witness :
  bgpstream_add_recent_interval_filter 10000 (Some fresh_stream) "1h" 1
  = bgpstream_add_interval_filter (Some fresh_stream) 6400 BGPSTREAM_FOREVER
  /\ bgpstream_add_recent_interval_filter 10000 (Some fresh_stream) "1h" 0
     = bgpstream_add_interval_filter (Some fresh_stream) 6400 10000
  /\ bgpstream_add_recent_interval_filter 4294967295 (Some fresh_stream)
       "1h" 0
     <> bgpstream_add_interval_filter (Some fresh_stream) 4294963695
          4294967295.
Proof.
  assert (Hrc : 1 <> 0) by discriminate.
  destruct (add_recent_is_add_interval (M := spec_managers open_setting)
              (Some fresh_stream) 10000 "1h" 1 1 6400 10000 eq_refl Hrc)
    as (Hlive & _ & _).
  destruct (add_recent_is_add_interval (M := spec_managers open_setting)
              (Some fresh_stream) 10000 "1h" 0 1 6400 10000 eq_refl Hrc)
    as (_ & Hplain & _).
  destruct (add_recent_is_add_interval (M := spec_managers open_setting)
              (Some fresh_stream) 4294967295 "1h" 0 1 4294963695 4294967295
              eq_refl Hrc)
    as (_ & _ & Hedge).
  split; [apply Hlive; discriminate|].
  split; [apply Hplain; [reflexivity | discriminate]|].
  destruct (Hedge eq_refl eq_refl fresh_stream eq_refl eq_refl) as [Hr Hi].
  rewrite Hr, Hi. discriminate.
Defined.

(** X9 to X13, on sequences of calls. *)
Lemma status_changed_by_start_only_witness :
  exists s',
    run_calls calls_without_start fresh_stream = Some s'
    /\ blocking (di_mgr s') = 1
    /\ status s' = BGPSTREAM_STATUS_ALLOCATED.
Proof.
  eexists. split; [reflexivity|]. split; [reflexivity|].
  exact (status_changed_by_start_only (M := spec_managers open_setting)
           calls_without_start fresh_stream _ eq_refl eq_refl).
Defined.

Lemma filters_frozen_outside_allocated_witness :
  status started_stream <> BGPSTREAM_STATUS_ALLOCATED
  /\ exists s',
       run_calls filter_calls_after_start started_stream = Some s'
       /\ filter_mgr s' = filter_mgr started_stream.
Proof.
  assert (Hst : status started_stream <> BGPSTREAM_STATUS_ALLOCATED)
    by discriminate.
  split; [exact Hst|]. eexists. split; [reflexivity|].
  exact (filters_frozen_outside_allocated (M := spec_managers open_setting)
           filter_calls_after_start started_stream _ Hst eq_refl eq_refl).
Defined.

Lemma never_left_off_witness :
  status fresh_stream <> BGPSTREAM_STATUS_OFF
  /\ exists s',
       run_calls start_read_start fresh_stream = Some s'
       /\ status s' <> BGPSTREAM_STATUS_OFF.
Proof.
  assert (Hst : status fresh_stream <> BGPSTREAM_STATUS_OFF) by discriminate.
  split; [exact Hst|]. eexists. split; [reflexivity|].
  exact (never_left_off (M := spec_managers open_setting)
           start_read_start fresh_stream _ Hst eq_refl).
Defined.

Lemma configuration_opens_nothing_witness :
  exists s',
    run_calls configure_and_start queued_stream = Some s'
    /\ status s' = BGPSTREAM_STATUS_ON
    /\ input_mgr s' = input_mgr queued_stream
    /\ reader_mgr s' = reader_mgr queued_stream.
Proof.
  eexists. split; [reflexivity|]. split; [reflexivity|].
  exact (configuration_opens_nothing (M := spec_managers open_setting)
           configure_and_start queued_stream _ eq_refl eq_refl).
Defined.

Lemma plain_filter_calls_keep_data_interface_witness :
  exists s',
    run_calls plain_filter_calls fresh_stream = Some s'
    /\ intervals (filter_mgr s') = [(0, 100); (200, 300); (6400, 10000)]
    /\ di_mgr s' = di_mgr fresh_stream.
Proof.
  eexists. split; [reflexivity|]. split; [reflexivity|].
  exact (plain_filter_calls_keep_data_interface
           (M := spec_managers open_setting) plain_filter_calls
           fresh_stream _ eq_refl eq_refl).
Defined.

(** X14 to X16, on the sample option table. *)
Lemma option_by_name_first_match_witness :
  exists e o,
    bgpstream_get_data_interface_option_by_name (T := sample_table)
      (Some started_stream) BGPSTREAM_DATA_INTERFACE_SINGLEFILE "rib-file"
    = Done e
    /\ retval e = OptionAt 0 o
    /\ opt_id o = 0
    /\ opt_name o = "rib-file".
Proof.
  eexists; eexists. split; [reflexivity|]. split; [reflexivity|].
  split; [reflexivity|].
  destruct (option_by_name_first_match (T := sample_table) started_stream
              BGPSTREAM_DATA_INTERFACE_SINGLEFILE "rib-file" _ 0 _
              eq_refl eq_refl)
    as (_ & arr & _ & _ & Hname & _).
  exact Hname.
Defined.

Lemma option_by_name_is_find_witness :
  (exists e i o,
     bgpstream_get_data_interface_option_by_name (T := sample_table)
       (Some started_stream) BGPSTREAM_DATA_INTERFACE_SQLITE "db-file"
     = Done e
     /\ retval e = OptionAt i o /\ opt_name o = "db-file")
  /\ (exists e,
        bgpstream_get_data_interface_option_by_name (T := sample_table)
          (Some started_stream) BGPSTREAM_DATA_INTERFACE_SQLITE "csv-file"
        = Done e
        /\ retval e = OptionNULL).
Proof.
  destruct (option_by_name_is_find (T := sample_table) started_stream
              BGPSTREAM_DATA_INTERFACE_SQLITE "db-file"
              (bgpstream_sqlite_options "bgpstream.db") eq_refl)
    as (e1 & Hrun1 & Hfind1).
  destruct (option_by_name_is_find (T := sample_table) started_stream
              BGPSTREAM_DATA_INTERFACE_SQLITE "csv-file"
              (bgpstream_sqlite_options "bgpstream.db") eq_refl)
    as (e2 & Hrun2 & Hfind2).
  split.
  - cbn in Hfind1. destruct Hfind1 as [i Hi].
    exists e1, i. eexists. split; [exact Hrun1|]. split; [exact Hi|].
    reflexivity.
  - exists e2. split; [exact Hrun2 | exact Hfind2].
Defined.

Lemma option_by_name_trusts_count_witness :
  (exists e,
     bgpstream_get_data_interface_option_by_name (T := sample_table)
       (Some started_stream) BGPSTREAM_DATA_INTERFACE_CSVFILE "csv-file"
     = Done e
     /\ retval e = OptionOutOfBounds 0)
  /\ (exists e,
        bgpstream_get_data_interface_option_by_name (T := sample_table)
          (Some started_stream) BGPSTREAM_DATA_INTERFACE_MYSQL "port"
        = Done e
        /\ retval e = OptionNULL).
Proof.
  destruct (option_by_name_trusts_count (T := sample_table) started_stream
              BGPSTREAM_DATA_INTERFACE_CSVFILE "csv-file" 2 (Some [])
              eq_refl) as (e1 & Hrun1 & _ & Hout).
  destruct (option_by_name_trusts_count (T := sample_table) started_stream
              BGPSTREAM_DATA_INTERFACE_MYSQL "port" 0 None eq_refl)
    as (e2 & Hrun2 & Hnull & _).
  split.
  - exists e1. split; [exact Hrun1|].
    apply (Hout [] eq_refl); reflexivity.
  - exists e2. split; [exact Hrun2|]. apply Hnull. left. reflexivity.
Defined.

End Examples2.

(** * Duration specifiers and the recent-interval filter *)

Module DurationFacts.

Import SpecModel.
Local Open Scope string_scope.
Local Open Scope Z_scope.

Lemma digit_value_is_digit (c : Ascii.ascii) :
  digit_value c
  = if is_digit c then Some (Z.of_nat (Ascii.nat_of_ascii c) - 48) else None.
Proof. reflexivity. Qed.

Lemma read_digits_app (digits : string) : forall acc rest,
  all_digits digits = true ->
  no_digit_ahead rest ->
  read_digits acc (digits ++ rest)
  = (String.length digits,
     acc * 10 ^ Z.of_nat (String.length digits) + decimal digits, rest).
Proof.
  induction digits as [|c digits IH]; intros acc rest Hall Hrest.
  - cbn [append String.length decimal]. rewrite Z.pow_0_r, Z.mul_1_r, Z.add_0_r.
    destruct rest as [|c r]; [reflexivity|].
    cbn [read_digits]. rewrite digit_value_is_digit.
    cbn [no_digit_ahead] in Hrest. rewrite Hrest. reflexivity.
  - cbn [all_digits] in Hall. apply andb_true_iff in Hall.
    destruct Hall as [Hc Hall].
    cbn [append read_digits]. rewrite digit_value_is_digit, Hc.
    rewrite (IH _ rest Hall Hrest).
    cbn [String.length decimal]. rewrite Nat2Z.inj_succ, Z.pow_succ_r by lia.
    f_equal. f_equal. ring.
Qed.

Lemma digits_split (s : string) :
  exists digits rest,
    s = digits ++ rest /\ all_digits digits = true /\ no_digit_ahead rest.
Proof.
  induction s as [|c s IH].
  - exists EmptyString, EmptyString. repeat split.
  - destruct (is_digit c) eqn:Ec.
    + destruct IH as (digits & rest & Hs & Hall & Hrest).
      exists (String c digits), rest. cbn [append all_digits].
      rewrite Ec, Hall, <- Hs. repeat split. exact Hrest.
    + exists EmptyString, (String c s). repeat split. exact Ec.
Qed.

Lemma unit_suffix_no_digit (u : option time_unit) :
  no_digit_ahead (unit_suffix u).
Proof. destruct u as [[]|]; reflexivity. Qed.

Lemma unit_seconds_spec (rest : string) (x : Z) :
  unit_seconds rest = Some x <->
  exists u, rest = unit_suffix u /\ x = unit_length u.
Proof.
  split.
  - unfold unit_seconds.
    destruct (String.eqb_spec rest EmptyString) as [-> | _];
      [intros H; inversion H; exists None; split; reflexivity|].
    destruct (String.eqb_spec rest "s") as [-> | _];
      [intros H; inversion H; exists (Some SECONDS); split; reflexivity|].
    destruct (String.eqb_spec rest "m") as [-> | _];
      [intros H; inversion H; exists (Some MINUTES); split; reflexivity|].
    destruct (String.eqb_spec rest "h") as [-> | _];
      [intros H; inversion H; exists (Some HOURS); split; reflexivity|].
    destruct (String.eqb_spec rest "d") as [-> | _];
      [intros H; inversion H; exists (Some DAYS); split; reflexivity|].
    destruct (String.eqb_spec rest "w") as [-> | _];
      [intros H; inversion H; exists (Some WEEKS); split; reflexivity|].
    discriminate.
  - intros (u & -> & ->). destruct u as [[]|]; reflexivity.
Qed.

(** The parser accepts exactly the duration specifiers, and finds what
    they stand for. *)
Lemma parse_duration_iff (s : string) (d : Z) :
  parse_duration s = Some d <-> duration_specifier s d.
Proof.
  unfold parse_duration, duration_specifier. split.
  - destruct (digits_split s) as (digits & rest & Hs & Hall & Hrest).
    rewrite Hs, (read_digits_app digits 0 rest Hall Hrest).
    destruct digits as [|c digits]; [discriminate|].
    cbn [String.length].
    destruct (unit_seconds rest) as [x|] eqn:Eu; [|discriminate].
    intros H. inversion H; subst d.
    apply unit_seconds_spec in Eu. destruct Eu as (u & -> & ->).
    exists (String c digits), u.
    split; [discriminate|]. split; [exact Hall|]. split; [reflexivity|].
    reflexivity.
  - intros (digits & u & Hne & Hall & -> & ->).
    rewrite (read_digits_app digits 0 _ Hall (unit_suffix_no_digit u)).
    destruct digits as [|c digits]; [contradiction|].
    cbn [String.length].
    rewrite (proj2 (unit_seconds_spec (unit_suffix u) (unit_length u)))
      by (exists u; split; reflexivity).
    reflexivity.
Qed.

Section Recent.

Variable w : setting.

(** C7: with status ALLOCATED and the helper of the design document,
    [bgpstream_add_recent_interval_filter] called with a duration
    specifier that stands for [d] seconds appends the interval from
    [now - d] to [now] to the filter set and changes nothing else when
    [islive] is 0; when [islive] is not 0 it appends the interval from
    [now - d] to [BGPSTREAM_FOREVER] and sets the blocking flag.  Called
    with a string that is no duration specifier it logs the error and
    leaves the object as it was: no interval is added. *)
Theorem add_recent_interval_filter_spec (s : @bgpstream_t (spec_managers w))
    (now islive : Z) :
  status s = BGPSTREAM_STATUS_ALLOCATED ->
  (forall interval d,
     duration_specifier interval d ->
     bgpstream_add_recent_interval_filter now (Some s) interval islive
     = Done (Eff tt
         (Some (mk_bgpstream (M := spec_managers w)
                  (mk_filter_set
                     (intervals (filter_mgr s)
                      ++ [(now - d,
                           if islive =? 0 then now else BGPSTREAM_FOREVER)])
                     (rib_period (filter_mgr s)) (filters (filter_mgr s)))
                  (if islive =? 0 then di_mgr s
                   else mk_datasource_mgr (datasource (di_mgr s))
                          (options (di_mgr s)) 1 (backoff_time (di_mgr s))
                          (ds_status (di_mgr s)) (backend_opens (di_mgr s))
                          (backend (di_mgr s)) (slept (di_mgr s)))
                  (input_mgr s) (reader_mgr s)
                  BGPSTREAM_STATUS_ALLOCATED)) []))
  /\ (forall interval,
        (forall d, ~ duration_specifier interval d) ->
        bgpstream_add_recent_interval_filter now (Some s) interval islive
        = Done (Eff tt (Some s)
            [EvLogErr "Failed to determine suitable time interval"])).
Proof.
  intros Hst. split.
  - intros interval d Hd. apply parse_duration_iff in Hd.
    assert (Hcalc : bgpstream_time_calc_recent_interval
                      (Managers := spec_managers w) now interval
                    = (1, (now - d, now))).
    { cbn [bgpstream_time_calc_recent_interval spec_managers].
      unfold time_calc_recent_interval. rewrite Hd. reflexivity. }
    destruct (add_recent_interval_filter_cases (M := spec_managers w)
                s now interval islive 1 (now - d) now Hst Hcalc)
      as (Hplain & Hlive & _).
    destruct (Z.eqb_spec islive 0) as [E | E].
    + rewrite (Hplain ltac:(discriminate) E). reflexivity.
    + rewrite (Hlive ltac:(discriminate) E). reflexivity.
  - intros interval Hno.
    assert (Hnone : parse_duration interval = None).
    { destruct (parse_duration interval) as [d|] eqn:E; [|reflexivity].
      apply parse_duration_iff in E. destruct (Hno d E). }
    assert (Hcalc : bgpstream_time_calc_recent_interval
                      (Managers := spec_managers w) now interval
                    = (0, (0, 0))).
    { cbn [bgpstream_time_calc_recent_interval spec_managers].
      unfold time_calc_recent_interval. rewrite Hnone. reflexivity. }
    destruct (add_recent_interval_filter_cases (M := spec_managers w)
                s now interval islive 0 0 0 Hst Hcalc)
      as (_ & _ & Hfail).
    apply Hfail. reflexivity.
Qed.

End Recent.

Import Fixture.

(** C7, on a fresh stream at time 10000: one hour and 90 minutes back
    from now, without and with the live flag, and two strings that are no
    duration specifiers. *)
Lemma add_recent_interval_filter_spec_witness :
  status fresh_stream = BGPSTREAM_STATUS_ALLOCATED
  /\ duration_specifier "1h" 3600
  /\ duration_specifier "90m" 5400
  /\ (forall d, ~ duration_specifier "soon" d)
  /\ (forall d, ~ duration_specifier "2x" d)
  /\ (exists s',
        bgpstream_add_recent_interval_filter 10000 (Some fresh_stream)
          "1h" 0 = Done (Eff tt (Some s') [])
        /\ intervals (filter_mgr s') = [(0, 100); (6400, 10000)]
        /\ blocking (di_mgr s') = 0)
  /\ (exists s',
        bgpstream_add_recent_interval_filter 10000 (Some fresh_stream)
          "90m" 1 = Done (Eff tt (Some s') [])
        /\ intervals (filter_mgr s') = [(0, 100); (4600, 4294967295)]
        /\ blocking (di_mgr s') = 1)
  /\ bgpstream_add_recent_interval_filter 10000 (Some fresh_stream) "soon" 0
     = Done (Eff tt (Some fresh_stream)
         [EvLogErr "Failed to determine suitable time interval"])
  /\ bgpstream_add_recent_interval_filter 10000 (Some fresh_stream) "2x" 1
     = Done (Eff tt (Some fresh_stream)
         [EvLogErr "Failed to determine suitable time interval"]).
Proof.
  assert (H1h : duration_specifier "1h" 3600).
  { exists "1", (Some HOURS). repeat split. discriminate. }
  assert (H90m : duration_specifier "90m" 5400).
  { exists "90", (Some MINUTES). repeat split. discriminate. }
  assert (Hsoon : forall d, ~ duration_specifier "soon" d).
  { intros d H. apply parse_duration_iff in H. discriminate. }
  assert (H2x : forall d, ~ duration_specifier "2x" d).
  { intros d H. apply parse_duration_iff in H. discriminate. }
  destruct (add_recent_interval_filter_spec open_setting fresh_stream
              10000 0 eq_refl) as [Hplain Hfail0].
  destruct (add_recent_interval_filter_spec open_setting fresh_stream
              10000 1 eq_refl) as [Hlive Hfail1].
  split; [reflexivity|]. split; [exact H1h|]. split; [exact H90m|].
  split; [exact Hsoon|]. split; [exact H2x|].
  split; [|split; [|split]].
  - eexists. split; [apply (Hplain "1h" 3600 H1h)|]. split; reflexivity.
  - eexists. split; [apply (Hlive "90m" 5400 H90m)|]. split; reflexivity.
  - apply Hfail0, Hsoon.
  - apply Hfail1, H2x.
Defined.

End DurationFacts.
